(** * Suivre mes Calories: the goal calculator and the analysis display rules

    A shallow embedding of the computational parts of the application:
    - [ProfileScreen]: [calculateBMR], [getActivityMultiplier], [calculateTDEE]
      (frontend/src/screens/ProfileScreen.js);
    - [GoalSettings]: [calculateDailyCalories]
      (frontend/src/components/GoalSettings.js);
    - [NutritionAnalysisScreen]: the trend line of [renderCaloriesTrend];
    - [EatingHabitsScreen]: the regularity tier of [renderMealTimingSection];
    - [GoalCalculator] and [Aggregator]: the server side of [/calculate_goals]
      and of the nutrient analysis, which the screens only call.

    Numbers.  An ECMAScript number is a binary64 value.  Here a finite
    number is the exact rational it denotes ([Qc], canonical fractions with
    Leibniz equality), next to [NaN] and the two infinities.  Rounding to 53
    bits, overflow and the sign of zero are not represented; the bar of
    [EatingHabitsBars.consistency_progress], compared with thresholds that a
    rounded result can reach, carries the rounding as a parameter. *)

From Stdlib Require Import ZArith QArith Qcanon Qround Qabs Lqa Lia Ascii String.
From stdpp Require Import base numbers strings gmap list sorting pretty.

Local Open Scope Z_scope.

(** ** ECMAScript values and built-ins used by the screens *)
Module JS.

Inductive number :=
| NaN
| Num (q : Qc)
| Inf (negative : bool).

#[global] Instance number_eq_dec : EqDecision number.
Proof. solve_decision. Defined.

(** A decimal numeric literal of the source. *)
Definition lit (q : Q) : number := Num (Q2Qc q).
#[global] Arguments lit q%_Q.

Definition is_negative (q : Qc) : bool := bool_decide (q < 0)%Qc.
Definition is_zero (q : Qc) : bool := bool_decide (q = 0%Qc).

(** [x + y] *)
Definition add (x y : number) : number :=
  match x, y with
  | NaN, _ | _, NaN => NaN
  | Num a, Num b => Num (a + b)
  | Inf s, Num _ | Num _, Inf s => Inf s
  | Inf s, Inf t => if Bool.eqb s t then Inf s else NaN
  end.

(** [- x] *)
Definition neg (x : number) : number :=
  match x with
  | NaN => NaN
  | Num a => Num (- a)
  | Inf s => Inf (negb s)
  end.

(** [x - y] *)
Definition sub (x y : number) : number := add x (neg y).

(** [x * y] *)
Definition mul (x y : number) : number :=
  match x, y with
  | NaN, _ | _, NaN => NaN
  | Num a, Num b => Num (a * b)
  | Inf s, Num a | Num a, Inf s =>
      if is_zero a then NaN else Inf (xorb s (is_negative a))
  | Inf s, Inf t => Inf (xorb s t)
  end.

(** [x / y]; a zero divisor is the positive zero. *)
Definition div (x y : number) : number :=
  match x, y with
  | NaN, _ | _, NaN => NaN
  | Num a, Num b =>
      if is_zero b then (if is_zero a then NaN else Inf (is_negative a))
      else Num (a / b)
  | Num _, Inf _ => Num 0
  | Inf s, Num b => Inf (xorb s (is_negative b))
  | Inf _, Inf _ => NaN
  end.

(** [x < y]: false as soon as one side is [NaN]. *)
Definition lt (x y : number) : bool :=
  match x, y with
  | NaN, _ | _, NaN => false
  | Num a, Num b => bool_decide (a < b)%Qc
  | Num _, Inf t => negb t
  | Inf s, Num _ => s
  | Inf s, Inf t => s && negb t
  end.

(** [x > y] *)
Definition gt (x y : number) : bool := lt y x.

(** [x <= y]: [!(y < x)] unless one side is [NaN]. *)
Definition le (x y : number) : bool :=
  match x, y with
  | NaN, _ | _, NaN => false
  | _, _ => negb (lt y x)
  end.

(** [Math.round]: the nearest integer, a tie going up. *)
Definition Math_round (x : number) : number :=
  match x with
  | Num a => Num (Qc_of_Z (Qfloor (a + Q2Qc (1 # 2))%Qc))
  | _ => x
  end.

(** [Math.abs] *)
Definition Math_abs (x : number) : number :=
  match x with
  | NaN => NaN
  | Num a => Num (if is_negative a then - a else a)
  | Inf _ => Inf false
  end.

(** The values a field of the profile or of the goal selection holds: a
    text input holds a string, a field the server left out reads
    [undefined].  Numbers are kept apart, in [number]. *)
Inductive value :=
| VUndefined
| VNull
| VBoolean (b : bool)
| VString (s : string).

#[global] Instance value_eq_dec : EqDecision value.
Proof. solve_decision. Defined.

Definition ToString (v : value) : string :=
  match v with
  | VUndefined => "undefined"
  | VNull => "null"
  | VBoolean true => "true"
  | VBoolean false => "false"
  | VString s => s
  end.

(** [v === 'text'] *)
Definition strict_equals_string (v : value) (text : string) : bool :=
  match v with
  | VString s => bool_decide (s = text)
  | _ => false
  end.

End JS.

(** ** [parseFloat] and [parseInt]

  Both convert their argument with [ToString], skip leading white space and
  read the longest prefix that is a numeric literal; no such prefix gives
  [NaN].  Strings are sequences of ASCII characters. *)
Module Parse.
Import JS.

Definition code (c : ascii) : Z := Z.of_nat (nat_of_ascii c).

(** TAB, LF, VT, FF, CR and the space. *)
Definition is_white_space (c : ascii) : bool :=
  ((9 <=? code c) && (code c <=? 13)) || (code c =? 32).

Definition is_digit (c : ascii) : bool := (48 <=? code c) && (code c <=? 57).

(** The value of a digit in base 16 ([0-9], [a-f], [A-F]). *)
Definition hex_value (c : ascii) : option Z :=
  if is_digit c then Some (code c - 48)
  else if (97 <=? code c) && (code c <=? 102) then Some (code c - 87)
  else if (65 <=? code c) && (code c <=? 70) then Some (code c - 55)
  else None.

Definition digit_value (radix : Z) (c : ascii) : option Z :=
  if radix =? 16 then hex_value c
  else if is_digit c then Some (code c - 48) else None.

Fixpoint trim_start (s : string) : string :=
  match s with
  | String c rest => if is_white_space c then trim_start rest else s
  | EmptyString => s
  end.

(** The longest run of digits at the head of [s]: its value (continuing
    [acc]), its length (continuing [len]) and what follows it. *)
Fixpoint digits (radix : Z) (acc : Z) (len : nat) (s : string) : Z * nat * string :=
  match s with
  | String c rest =>
      match digit_value radix c with
      | Some d => digits radix (radix * acc + d) (S len) rest
      | None => (acc, len, s)
      end
  | EmptyString => (acc, len, s)
  end.

(** An optional sign: whether it is a minus, and what follows it. *)
Definition sign (s : string) : bool * string :=
  match s with
  | String "-" rest => (true, rest)
  | String "+" rest => (false, rest)
  | _ => (false, s)
  end.

Definition signed (negative : bool) (q : Qc) : Qc :=
  if negative then (- q)%Qc else q.

(** [10 ^ e] for an exponent of either sign. *)
Definition pow10 (e : Z) : Qc :=
  if e <? 0 then (/ Qc_of_Z (10 ^ (- e)))%Qc else Qc_of_Z (10 ^ e).

(** The exponent part [e±ddd] at the head of [s], when there is one. *)
Definition exponent (s : string) : Z :=
  match s with
  | String c rest =>
      if (code c =? 101) || (code c =? 69) then
        let '(negative, rest) := sign rest in
        let '(e, len, _) := digits 10 0 0 rest in
        match len with
        | O => 0
        | S _ => if negative then - e else e
        end
      else 0
  | EmptyString => 0
  end.

(** A [StrDecimalLiteral] prefix of a string without leading white space. *)
Definition decimal_literal (s : string) : number :=
  let '(negative, s) := sign s in
  if String.prefix "Infinity" s then Inf negative
  else
    let '(int_part, int_len, s) := digits 10 0 0 s in
    let '(frac_part, frac_len, s) :=
      match s with
      | String "." rest => digits 10 0 0 rest
      | _ => (0, O, s)
      end in
    match int_len, frac_len with
    | O, O => NaN
    | _, _ =>
        let mantissa :=
          (Qc_of_Z int_part + Qc_of_Z frac_part * pow10 (- Z.of_nat frac_len))%Qc in
        Num (signed negative (mantissa * pow10 (exponent s))%Qc)
    end.

Definition parseFloat (v : value) : number :=
  decimal_literal (trim_start (ToString v)).

(** [parseInt] without a radix: base 16 after [0x] or [0X], else base 10. *)
Definition parseInt (v : value) : number :=
  let '(negative, s) := sign (trim_start (ToString v)) in
  let '(radix, s) :=
    match s with
    | String "0" (String c rest) =>
        if (code c =? 120) || (code c =? 88) then (16, rest) else (10, s)
    | _ => (10, s)
    end in
  let '(n, len, _) := digits radix 0 0 s in
  match len with
  | O => NaN
  | S _ => Num (signed negative (Qc_of_Z n))
  end.

End Parse.

(** ** Object literals and property reads

  [o[key]] reads an own property of the literal or, failing that, a property
  inherited from [Object.prototype]; a key found in neither reads
  [undefined]. *)
Module Obj.
Import JS.

(** What a property read evaluates to. *)
Inductive property :=
| PUndefined
| PNumber (n : number)
| PBuiltin (name : string).

#[global] Instance property_eq_dec : EqDecision property.
Proof. solve_decision. Defined.

(** The properties every object literal inherits (ECMA-262, 20.1.3 and
    B.2.2): methods, and the accessor [__proto__].  Each reads as a function
    or an object. *)
Definition Object_prototype : list string :=
  [ "constructor"; "hasOwnProperty"; "isPrototypeOf"; "propertyIsEnumerable";
    "toLocaleString"; "toString"; "valueOf"; "__proto__";
    "__defineGetter__"; "__defineSetter__"; "__lookupGetter__";
    "__lookupSetter__" ]%string.

Definition get (own : gmap string number) (key : string) : property :=
  match own !! key with
  | Some n => PNumber n
  | None => if bool_decide (key ∈ Object_prototype) then PBuiltin key else PUndefined
  end.

Definition ToBoolean (p : property) : bool :=
  match p with
  | PUndefined => false
  | PNumber NaN => false
  | PNumber (Num q) => negb (is_zero q)
  | PNumber (Inf _) => true
  | PBuiltin _ => true
  end.

(** [ToNumber]: a function or an object of [Object.prototype] converts
    through its source text or ["[object Object]"], which is no number. *)
Definition ToNumber (p : property) : number :=
  match p with
  | PUndefined => NaN
  | PNumber n => n
  | PBuiltin _ => NaN
  end.

(** [p || q] *)
Definition or (p q : property) : property := if ToBoolean p then p else q.

End Obj.

(** ** frontend/src/screens/ProfileScreen.js *)
Module ProfileScreen.
Import JS Parse Obj.

Record profile := {
  weight : value;
  height : value;
  age : value;
  gender : value;
  activityLevel : value;
  goal : value;
}.

(** The state the screen starts from. *)
Definition initial : profile :=
  {| weight := VString ""; height := VString ""; age := VString "";
     gender := VString ""; activityLevel := VString ""; goal := VString "" |}.

(** Formule de Mifflin-St Jeor *)
Definition calculateBMR (profile : profile) : number :=
  let weight := parseFloat (weight profile) in
  let height := parseFloat (height profile) in
  let age := parseInt (age profile) in
  if strict_equals_string (gender profile) "homme" then
    add (sub (add (mul (lit 10) weight) (mul (lit 6.25) height)) (mul (lit 5) age)) (lit 5)
  else
    sub (sub (add (mul (lit 10) weight) (mul (lit 6.25) height)) (mul (lit 5) age)) (lit 161).

Definition levels : gmap string number :=
  <["sedentaire" := lit 1.2]> (
  <["leger" := lit 1.375]> (
  <["modere" := lit 1.55]> (
  <["actif" := lit 1.725]> (
  <["tresActif" := lit 1.9]> ∅)))).

Definition getActivityMultiplier (profile : profile) : property :=
  or (get levels (ToString (activityLevel profile))) (PNumber (lit 1.2)).

Definition calculateTDEE (profile : profile) : number :=
  mul (calculateBMR profile) (ToNumber (getActivityMultiplier profile)).

End ProfileScreen.

(** ** frontend/src/components/GoalSettings.js *)
Module GoalSettings.
Import JS Parse.

Record goals := {
  type : value;
  weeklyChange : value;
  targetWeight : value;
  deadline : value;
}.

(** The state the component starts from. *)
Definition initial : goals :=
  {| type := VString "maintien"; weeklyChange := VString "0.5";
     targetWeight := VString ""; deadline := VString "" |}.

(** À remplacer par le calcul réel basé sur le profil *)
Definition baseCalories : number := lit 2000.

(** The [switch] on [goals.type]; 1kg = 7700 calories. *)
Definition adjustment (goals : goals) : number :=
  if strict_equals_string (type goals) "perte" then
    div (neg (mul (lit 7700) (parseFloat (weeklyChange goals)))) (lit 7)
  else if strict_equals_string (type goals) "prise" then
    div (mul (lit 7700) (parseFloat (weeklyChange goals))) (lit 7)
  else lit 0.

Definition calculateDailyCalories (goals : goals) : number :=
  Math_round (add baseCalories (adjustment goals)).

End GoalSettings.

(** ** NutritionAnalysisScreen: [renderCaloriesTrend] *)
Module NutritionAnalysisScreen.
Import JS.

(** [analysis.calories.trend] as the server sends it. *)
Record trend := {
  values : list number;
  direction : string;
  slope : number;
}.

(** [slope > 10 && ' (changement significatif)']: React prints the string
    and prints nothing for [false]. *)
Definition significance (t : trend) : option string :=
  if gt (slope t) (lit 10) then Some " (changement significatif)"%string else None.

(** The text of the paragraph under the chart; [None] when the card is not
    rendered ([!analysis?.calories?.trend]). *)
Definition renderCaloriesTrend (trend : option trend) : option string :=
  match trend with
  | None => None
  | Some t =>
      Some ("Tendance : " +:+ direction t +:+ default ""%string (significance t))
  end.

End NutritionAnalysisScreen.

(** ** EatingHabitsScreen: [renderMealTimingSection] *)
Module EatingHabitsScreen.
Import JS.

(** One entry of [analysis.meal_timing.meal_time_distribution]. *)
Record meal_time := {
  average_time : number;
  consistency : number;
}.

Inductive regularity := Excellente | Bonne | A_ameliorer.

#[global] Instance regularity_eq_dec : EqDecision regularity.
Proof. solve_decision. Defined.

(** The labels the screen prints. *)
Definition label (r : regularity) : string :=
  match r with
  | Excellente => "Excellente"
  | Bonne => "Bonne"
  | A_ameliorer => "À améliorer"
  end.

(** [consistency < 1 ? 'Excellente' : consistency < 2 ? 'Bonne' : 'À améliorer'] *)
Definition regularity_of (data : meal_time) : regularity :=
  if lt (consistency data) (lit 1) then Excellente
  else if lt (consistency data) (lit 2) then Bonne
  else A_ameliorer.

(** The line printed for every meal type of the distribution. *)
Definition renderMealTimingSection (mealTimes : list (string * meal_time))
  : list (string * string) :=
  (λ '(meal, data), (meal, "Régularité: " +:+ label (regularity_of data))) <$> mealTimes.

End EatingHabitsScreen.

(** ** The categories of the data model and their codes in the application

  The registration screen offers ['homme'] and ['femme'] (labels Homme and
  Femme) and the activity levels; [levels] of the profile screen lists the
  five activity keys; the goal component offers ['perte'], ['maintien'] and
  ['prise']. *)
Module Category.

Inductive sex := Male | Female.
Inductive activity := Sedentary | Light | Moderate | Active | VeryActive.
Inductive goal_type := Lose | Maintain | Gain.

Definition gender_code (s : sex) : string :=
  match s with Male => "homme" | Female => "femme" end.

Definition activity_code (a : activity) : string :=
  match a with
  | Sedentary => "sedentaire"
  | Light => "leger"
  | Moderate => "modere"
  | Active => "actif"
  | VeryActive => "tresActif"
  end.

Definition goal_code (g : goal_type) : string :=
  match g with Lose => "perte" | Maintain => "maintien" | Gain => "prise" end.

End Category.

(** ** What a caller of a calculator observes

  The bodies of [calculateBMR], [calculateTDEE] and
  [calculateDailyCalories] are straight-line arithmetic on the results of
  [parseFloat] and [parseInt]; they contain no [throw], no early [return]
  and no test on the numbers read.  A call therefore completes with the
  number computed.  [Failed] is the other outcome the error taxonomy of the
  design speaks of. *)
Module Outcome.
Import JS.

Inductive error := InvalidProfile | InfeasibleGoal | InsufficientData | EmptyInput.

Inductive outcome :=
| Returned (n : number)
| Failed (e : error).

#[global] Instance error_eq_dec : EqDecision error.
Proof. solve_decision. Defined.

#[global] Instance outcome_eq_dec : EqDecision outcome.
Proof. solve_decision. Defined.

Definition call {A : Type} (f : A → number) (x : A) : outcome := Returned (f x).

End Outcome.

(** ** GoalCalculator: the macro split of [/calculate_goals]

  The page script posts the form to [/calculate_goals] and prints
  [calorie_goal], [protein_goal], [carb_goal] and [fat_goal] of the answer;
  the handler itself is not part of the sources. *)
Module GoalCalculator.

Local Open Scope Qc_scope.

(** Modelled from the spec: GoalTargets, the answer of [/calculate_goals]
    (calories in kcal per day, the three macros in grams per day). *)
Record GoalTargets := {
  calorie_goal : Qc;
  protein_goal : Qc;
  carb_goal : Qc;
  fat_goal : Qc;
}.

(** Modelled from the spec: the split ratios [{protein_pct, carb_pct,
    fat_pct}] of the macro policy. *)
Record macroSplit := {
  protein_pct : Qc;
  carb_pct : Qc;
  fat_pct : Qc;
}.

(** Modelled from the spec: the default policy, 20% protein, 50%
    carbohydrate, 30% fat. *)
Definition default_split : macroSplit :=
  {| protein_pct := Q2Qc 0.20; carb_pct := Q2Qc 0.50; fat_pct := Q2Qc 0.30 |}.

(** Modelled from the spec: the rule that turns a gram amount into the
    amount reported.  The design leaves the rule to the implementation
    (section 9); these are the usual ones: no rounding, the nearest whole
    gram with a tie going up or to the even neighbour, the whole gram below
    and the whole gram above. *)
Inductive gram_rounding := Unrounded | Nearest | NearestEven | Down | Up.

(** Modelled from the spec: the whole gram below an amount. *)
Definition floorQc (x : Qc) : Z := Qfloor x.

(** Modelled from the spec: the whole gram above an amount. *)
Definition ceilingQc (x : Qc) : Z := Qceiling x.

(** Modelled from the spec: a gram amount under a rounding rule. *)
Definition round_grams (rule : gram_rounding) (x : Qc) : Qc :=
  match rule with
  | Unrounded => x
  | Nearest => Qc_of_Z (floorQc (x + Q2Qc (1 # 2)))
  | NearestEven =>
      let lo := floorQc x in
      if bool_decide (x - Qc_of_Z lo < Q2Qc (1 # 2)) then Qc_of_Z lo
      else if bool_decide (Q2Qc (1 # 2) < x - Qc_of_Z lo) then Qc_of_Z (lo + 1)
      else if Z.even lo then Qc_of_Z lo else Qc_of_Z (lo + 1)
  | Down => Qc_of_Z (floorQc x)
  | Up => Qc_of_Z (ceilingQc x)
  end.

(** Modelled from the spec: how far a reported gram amount can lie from the
    exact one under a rule. *)
Definition gram_tolerance (rule : gram_rounding) : Qc :=
  match rule with
  | Unrounded => 0
  | Nearest | NearestEven => Q2Qc (1 # 2)
  | Down | Up => 1
  end.

(** Modelled from the spec: the macro split; each macro receives its share
    of the calorie goal, divided by 4, 4 and 9 kcal per gram. *)
Definition macro_targets (split : macroSplit) (rule : gram_rounding)
    (calorie_goal : Qc) : GoalTargets :=
  {| calorie_goal := calorie_goal;
     protein_goal := round_grams rule (calorie_goal * protein_pct split / Q2Qc 4);
     carb_goal := round_grams rule (calorie_goal * carb_pct split / Q2Qc 4);
     fat_goal := round_grams rule (calorie_goal * fat_pct split / Q2Qc 9) |}.

(** Modelled from the spec: the energy of the three macro goals,
    [protein_goal*4 + carb_goal*4 + fat_goal*9]. *)
Definition macro_calories (t : GoalTargets) : Qc :=
  protein_goal t * Q2Qc 4 + carb_goal t * Q2Qc 4 + fat_goal t * Q2Qc 9.

(** Modelled from the spec: the rounding tolerance of the invariant, the
    energy of one rounding step of each macro (4, 4 and 9 kcal per gram). *)
Definition rounding_tolerance (rule : gram_rounding) : Qc :=
  (Q2Qc 4 + Q2Qc 4 + Q2Qc 9) * gram_tolerance rule.

End GoalCalculator.

(** ** Aggregator: the period summaries behind the analysis screens

  The screens fetch their figures through [getDetailedNutritionAnalysis],
  [getDailyCalories] and [getWeeklyProgress]; the code that buckets and sums
  the logged meals is not part of the sources. *)
Module Aggregator.

Local Open Scope Qc_scope.

(** Modelled from the spec: the meal type of a MealEntry. *)
Inductive meal_type := Breakfast | Lunch | Dinner | Snack.

#[global] Instance meal_type_eq_dec : EqDecision meal_type.
Proof. solve_decision. Defined.

(** Modelled from the spec: MealEntry, one logged meal (the timestamp is an
    instant, in seconds). *)
Record MealEntry := {
  id : Z;
  user : Z;
  timestamp : Z;
  meal : meal_type;
  calories : Qc;
  protein : Qc;
  carbs : Qc;
  fat : Qc;
  food : string;
}.

(** Modelled from the spec: total calories and macros. *)
Record Totals := {
  total_calories : Qc;
  total_protein : Qc;
  total_carbs : Qc;
  total_fat : Qc;
}.

#[global] Instance Totals_eq_dec : EqDecision Totals.
Proof. solve_decision. Defined.

(** Modelled from the spec: all totals zero. *)
Definition no_totals : Totals :=
  {| total_calories := 0; total_protein := 0; total_carbs := 0; total_fat := 0 |}.

(** Modelled from the spec: the sum of two totals. *)
Definition add_totals (a b : Totals) : Totals :=
  {| total_calories := total_calories a + total_calories b;
     total_protein := total_protein a + total_protein b;
     total_carbs := total_carbs a + total_carbs b;
     total_fat := total_fat a + total_fat b |}.

(** Modelled from the spec: the content of a PeriodAggregate next to its
    period key: totals, one subtotal per meal type, and the entry count. *)
Record PeriodAggregate := {
  totals : Totals;
  breakfast : Totals;
  lunch : Totals;
  dinner : Totals;
  snack : Totals;
  entry_count : nat;
}.

#[global] Instance PeriodAggregate_eq_dec : EqDecision PeriodAggregate.
Proof. solve_decision. Defined.

(** Modelled from the spec: a bucket without entries has zero totals. *)
Definition empty_aggregate : PeriodAggregate :=
  {| totals := no_totals; breakfast := no_totals; lunch := no_totals;
     dinner := no_totals; snack := no_totals; entry_count := 0 |}.

(** Modelled from the spec: what one entry adds to the totals of its
    bucket. *)
Definition totals_of (e : MealEntry) : Totals :=
  {| total_calories := calories e; total_protein := protein e;
     total_carbs := carbs e; total_fat := fat e |}.

(** Modelled from the spec: what one entry adds to the subtotal of a meal
    type. *)
Definition subtotal_of (t : meal_type) (e : MealEntry) : Totals :=
  if bool_decide (meal e = t) then totals_of e else no_totals.

(** Modelled from the spec: the aggregate of a single entry. *)
Definition single (e : MealEntry) : PeriodAggregate :=
  {| totals := totals_of e;
     breakfast := subtotal_of Breakfast e;
     lunch := subtotal_of Lunch e;
     dinner := subtotal_of Dinner e;
     snack := subtotal_of Snack e;
     entry_count := 1 |}.

(** Modelled from the spec: the sum of two aggregates of one bucket. *)
Definition combine (a b : PeriodAggregate) : PeriodAggregate :=
  {| totals := add_totals (totals a) (totals b);
     breakfast := add_totals (breakfast a) (breakfast b);
     lunch := add_totals (lunch a) (lunch b);
     dinner := add_totals (dinner a) (dinner b);
     snack := add_totals (snack a) (snack b);
     entry_count := (entry_count a + entry_count b)%nat |}.

(** Modelled from the spec: the averages of a bucket, per entry; a bucket
    without entries has the explicit average zero. *)
Definition average (a : PeriodAggregate) : Totals :=
  match entry_count a with
  | O => no_totals
  | S _ =>
      let n := Qc_of_Z (Z.of_nat (entry_count a)) in
      {| total_calories := total_calories (totals a) / n;
         total_protein := total_protein (totals a) / n;
         total_carbs := total_carbs (totals a) / n;
         total_fat := total_fat (totals a) / n |}
  end.

(** Modelled from the spec: the period granularity. *)
Inductive granularity := Day | Week | Month.

Section Buckets.

(** Modelled from the spec: the bucketing key, the calendar date (or ISO
    week, or month) of an instant in the supplied time zone, as a number.
    The calendar is left to the caller of the fold. *)
Variable time_zone : Type.
Variable period_key : granularity → time_zone → Z → Z.

Variable g : granularity.
Variable tz : time_zone.

(** Modelled from the spec: one step of the fold, the entry added to the
    bucket of its local period. *)
Definition add_entry (e : MealEntry) (buckets : gmap Z PeriodAggregate)
  : gmap Z PeriodAggregate :=
  let k := period_key g tz (timestamp e) in
  <[k := combine (single e) (default empty_aggregate (buckets !! k))]> buckets.

(** Modelled from the spec: the fold over the entries. *)
Definition buckets_of (entries : list MealEntry) : gmap Z PeriodAggregate :=
  foldr add_entry ∅ entries.

(** Modelled from the spec: the order of the output, by period key. *)
Definition key_le (a b : Z * PeriodAggregate) : Prop := (a.1 ≤ b.1)%Z.

#[local] Instance key_le_dec : RelDecision key_le.
Proof. intros a b. unfold key_le. apply _. Defined.

(** Modelled from the spec: the Aggregator.  Without a date range the
    observed buckets come out in the order of their keys; with a range
    [(first, last)] every period of the range comes out, the ones without
    entries with zero totals.  No entries give an empty sequence. *)
Definition aggregate (range : option (Z * Z)) (entries : list MealEntry)
  : list (Z * PeriodAggregate) :=
  let buckets := buckets_of entries in
  match range with
  | None => merge_sort key_le (map_to_list buckets)
  | Some (first, last) =>
      (λ k, (k, default empty_aggregate (buckets !! k)))
        <$> seqZ first (last - first + 1)
  end.

End Buckets.

End Aggregator.

(** ** The figures of the design document, for comparison with the code *)
Module Design.
Import JS Category.

Local Open Scope Qc_scope.

(** The constant of the Mifflin-St Jeor equation: [+5] for male, [-161] for
    female. *)
Definition sex_constant (s : sex) : Qc :=
  match s with Male => Q2Qc 5 | Female => - Q2Qc 161 end.

(** The activity multipliers: sedentary=1.2, light=1.375, moderate=1.55,
    active=1.725, very_active=1.9. *)
Definition multiplier (a : activity) : Qc :=
  match a with
  | Sedentary => Q2Qc 1.2
  | Light => Q2Qc 1.375
  | Moderate => Q2Qc 1.55
  | Active => Q2Qc 1.725
  | VeryActive => Q2Qc 1.9
  end.

(** The daily calorie delta: [(7700 × weekly_rate)/7], added for a gain,
    subtracted for a loss, zero to maintain. *)
Definition delta (g : goal_type) (weekly_rate : Qc) : Qc :=
  match g with
  | Gain => Q2Qc 7700 * weekly_rate / Q2Qc 7
  | Lose => - (Q2Qc 7700 * weekly_rate / Q2Qc 7)
  | Maintain => 0
  end.

(** The constant [calculateBMR] adds for the gender of a profile. *)
Definition gender_constant (p : ProfileScreen.profile) : Qc :=
  if strict_equals_string (ProfileScreen.gender p) "homme" then Q2Qc 5 else - Q2Qc 161.

(** The inputs the design rejects as InvalidProfile: weight or height <= 0,
    age < 1, weekly rate < 0. *)
Definition invalid_input (p : ProfileScreen.profile) (g : GoalSettings.goals) : bool :=
  le (Parse.parseFloat (ProfileScreen.weight p)) (lit 0)
  || le (Parse.parseFloat (ProfileScreen.height p)) (lit 0)
  || lt (Parse.parseInt (ProfileScreen.age p)) (lit 1)
  || lt (Parse.parseFloat (GoalSettings.weeklyChange g)) (lit 0).



(** The order of the consistency tiers: excellent > good > needs
    improvement. *)
Definition tier_rank (r : EatingHabitsScreen.regularity) : nat :=
  match r with
  | EatingHabitsScreen.Excellente => 2
  | EatingHabitsScreen.Bonne => 1
  | EatingHabitsScreen.A_ameliorer => 0
  end.

(** The significance threshold; 10 is the value of the trend display. *)
Definition trendSignificanceThreshold : number := lit 10.

(** The magnitude classification of the design: [|slope|] against the
    threshold. *)
Definition significant (slope : number) : bool :=
  gt (Math_abs slope) trendSignificanceThreshold.

End Design.

(** ** The inputs the examples are run on *)
Module Sample.
Import JS.

Definition male_70 : ProfileScreen.profile :=
  {| ProfileScreen.weight := VString "70";
     ProfileScreen.height := VString "175";
     ProfileScreen.age := VString "30";
     ProfileScreen.gender := VString "homme";
     ProfileScreen.activityLevel := VString "modere";
     ProfileScreen.goal := VString "" |}.

Definition female_60 : ProfileScreen.profile :=
  {| ProfileScreen.weight := VString "60";
     ProfileScreen.height := VString "165";
     ProfileScreen.age := VString "25";
     ProfileScreen.gender := VString "femme";
     ProfileScreen.activityLevel := VString "actif";
     ProfileScreen.goal := VString "" |}.

Definition with_gender (g : value) (p : ProfileScreen.profile) : ProfileScreen.profile :=
  {| ProfileScreen.weight := ProfileScreen.weight p;
     ProfileScreen.height := ProfileScreen.height p;
     ProfileScreen.age := ProfileScreen.age p;
     ProfileScreen.gender := g;
     ProfileScreen.activityLevel := ProfileScreen.activityLevel p;
     ProfileScreen.goal := ProfileScreen.goal p |}.

Definition with_activityLevel (a : value) (p : ProfileScreen.profile) : ProfileScreen.profile :=
  {| ProfileScreen.weight := ProfileScreen.weight p;
     ProfileScreen.height := ProfileScreen.height p;
     ProfileScreen.age := ProfileScreen.age p;
     ProfileScreen.gender := ProfileScreen.gender p;
     ProfileScreen.activityLevel := a;
     ProfileScreen.goal := ProfileScreen.goal p |}.

Definition with_weight (w : value) (p : ProfileScreen.profile) : ProfileScreen.profile :=
  {| ProfileScreen.weight := w;
     ProfileScreen.height := ProfileScreen.height p;
     ProfileScreen.age := ProfileScreen.age p;
     ProfileScreen.gender := ProfileScreen.gender p;
     ProfileScreen.activityLevel := ProfileScreen.activityLevel p;
     ProfileScreen.goal := ProfileScreen.goal p |}.

Definition selection (type weeklyChange : string) : GoalSettings.goals :=
  {| GoalSettings.type := VString type;
     GoalSettings.weeklyChange := VString weeklyChange;
     GoalSettings.targetWeight := VString "";
     GoalSettings.deadline := VString "" |}.

Definition trend_of (direction : string) (slope : Q) : NutritionAnalysisScreen.trend :=
  {| NutritionAnalysisScreen.values := [];
     NutritionAnalysisScreen.direction := direction;
     NutritionAnalysisScreen.slope := lit slope |}.

Definition entry (id timestamp : Z) (meal : Aggregator.meal_type) (calories : Q)
  : Aggregator.MealEntry :=
  {| Aggregator.id := id; Aggregator.user := 1;
     Aggregator.timestamp := timestamp; Aggregator.meal := meal;
     Aggregator.calories := Q2Qc calories; Aggregator.protein := Q2Qc 20;
     Aggregator.carbs := Q2Qc 60; Aggregator.fat := Q2Qc 15;
     Aggregator.food := "plat" |}.

(** The calendar day of an instant, in seconds, at a fixed offset from UTC. *)
Definition local_day (g : Aggregator.granularity) (offset : Z) (instant : Z) : Z :=
  (instant + offset) `div` 86400.

Definition meal_time_of (consistency : Q) : EatingHabitsScreen.meal_time :=
  {| EatingHabitsScreen.average_time := lit 12;
     EatingHabitsScreen.consistency := lit consistency |}.

End Sample.

(** ** More built-ins: [Math.min], [Math.max], truthiness *)
Module JSMore.
Import JS.

(** [Math.min(x, y)]: [NaN] as soon as one argument is. *)
Definition Math_min (x y : number) : number :=
  match x, y with
  | NaN, _ | _, NaN => NaN
  | _, _ => if lt y x then y else x
  end.

(** [Math.max(x, y)]: [NaN] as soon as one argument is. *)
Definition Math_max (x y : number) : number :=
  match x, y with
  | NaN, _ | _, NaN => NaN
  | _, _ => if lt x y then y else x
  end.

(** [ToBoolean] of a field value: [undefined], [null], [false] and the empty
    string are falsy. *)
Definition truthy (v : value) : bool :=
  match v with
  | VUndefined | VNull => false
  | VBoolean b => b
  | VString s => negb (bool_decide (s = ""))
  end.

End JSMore.

(** ** frontend/src/components/NutritionCard.js *)
Module NutritionCard.
Import JS JSMore.

(** [Math.min(current / max, 1)] *)
Definition calculateProgress (current max : number) : number :=
  Math_min (div current max) (lit 1).

(** [Math.max(max - current, 0)] *)
Definition calculateRemaining (current max : number) : number :=
  Math_max (sub max current) (lit 0).

End NutritionCard.

(** ** HomeScreen: the daily card *)
Module HomeScreen.
Import JS.

Record dailyStats := {
  consumed : number;
  target : number;
  remaining : number;
}.

(** The state the screen starts from. *)
Definition initial : dailyStats :=
  {| consumed := lit 0; target := lit 2000; remaining := lit 2000 |}.

(** [progress={dailyStats.consumed / dailyStats.target}] *)
Definition progress (dailyStats : dailyStats) : number :=
  div (consumed dailyStats) (target dailyStats).

End HomeScreen.

(** ** NotificationCenter (frontend/src/components/GoalSettings.js) *)
Module NotificationCenter.
Import JS JSMore.

(** One notification of the server; [read] is absent from some. *)
Record notification := {
  id : Z;
  type : value;
  priority : value;
  message : string;
  read : value;
}.

Record state := {
  notifications : list notification;
  unreadCount : nat;
}.

(** [useState([])] and [useState(0)] *)
Definition initial : state := {| notifications := []; unreadCount := 0 |}.

(** [n => !n.read] *)
Definition unread (n : notification) : bool := negb (truthy (read n)).

(** [loadNotifications]: the answer of [getUserNotifications] is the array
    of notifications, or [None] when the call throws, which is logged and
    leaves the state as it was. *)
Definition loadNotifications (answer : option (list notification)) (st : state) : state :=
  match answer with
  | Some data =>
      {| notifications := data;
         unreadCount := length (List.filter unread data) |}
  | None => st
  end.

(** [unreadCount > 0 && <Badge>]: whether the badge is shown. *)
Definition badge (st : state) : bool := bool_decide (0 < unreadCount st)%nat.

(** The state after the successive answers of the server, the component
    having reloaded at each. *)
Definition after (answers : list (option (list notification))) : state :=
  foldl (λ st answer, loadNotifications answer st) initial answers.

End NotificationCenter.

(** ** The controls of GoalSettings *)
Module GoalSettingsControls.
Import JS GoalSettings.

(** The values of the two groups of segmented buttons. *)
Definition type_buttons : list string := ["perte"; "maintien"; "prise"]%string.
Definition weeklyChange_buttons : list string := ["0.25"; "0.5"; "1"]%string.

(** [setGoals({ ...goals, type: value })] *)
Definition set_type (value : string) (goals : goals) : GoalSettings.goals :=
  {| type := VString value; weeklyChange := weeklyChange goals;
     targetWeight := targetWeight goals; deadline := deadline goals |}.

(** [setGoals({ ...goals, weeklyChange: value })] *)
Definition set_weeklyChange (value : string) (goals : goals) : GoalSettings.goals :=
  {| type := type goals; weeklyChange := VString value;
     targetWeight := targetWeight goals; deadline := deadline goals |}.

(** [setGoals({ ...goals, targetWeight: text })] *)
Definition set_targetWeight (text : string) (goals : goals) : GoalSettings.goals :=
  {| type := type goals; weeklyChange := weeklyChange goals;
     targetWeight := VString text; deadline := deadline goals |}.

(** Whether the goal type selects one of the two cases of the [switch] of
    [calculateDailyCalories]. *)
Definition adjusts (g : goals) : bool :=
  strict_equals_string (type g) "perte" || strict_equals_string (type g) "prise".

(** What the user can do: press a button of either group, type a target
    weight.  The rate buttons and the target weight are drawn only while the
    type is not ['maintien']; their handlers are taken as they are. *)
Inductive event :=
| PressType (value : string)
| PressWeeklyChange (value : string)
| TypeTargetWeight (text : string).

(** The events the controls can raise: a button passes its own value. *)
Definition raised (e : event) : Prop :=
  match e with
  | PressType value => value ∈ type_buttons
  | PressWeeklyChange value => value ∈ weeklyChange_buttons
  | TypeTargetWeight _ => True
  end.

Definition handle (goals : goals) (e : event) : GoalSettings.goals :=
  match e with
  | PressType value => set_type value goals
  | PressWeeklyChange value => set_weeklyChange value goals
  | TypeTargetWeight text => set_targetWeight text goals
  end.

(** The state after a sequence of events, from the initial one. *)
Definition after (events : list event) : goals := foldl handle initial events.

(** What the buttons maintain: the type and the weekly change are button
    values. *)
Definition offered (g : goals) : Prop :=
  (∃ t, t ∈ type_buttons ∧ type g = VString t)
  ∧ (∃ w, w ∈ weeklyChange_buttons ∧ weeklyChange g = VString w).

End GoalSettingsControls.

(** ** NutritionAnalysisScreen: the chart labels and the macronutrient list *)
Module NutritionAnalysisCharts.
Import JS.

(** [Array.from({ length: selectedPeriod }, (_, i) => `J${i + 1}`)] *)
Definition labels (selectedPeriod : nat) : list string :=
  (λ i, "J" +:+ pretty (i + 1)%nat) <$> seq 0 selectedPeriod.

(** [analysis.macronutrients]: the percentage of each macronutrient. *)
Record macronutrients := {
  proteins : number;
  carbs : number;
  fats : number;
}.

(** The list under the pie chart: each name with [Math.round(percentage)];
    [None] when the card is not rendered. *)
Definition renderMacronutrients (m : option macronutrients) : option (list (string * number)) :=
  match m with
  | None => None
  | Some m =>
      Some [("Protéines"%string, Math_round (proteins m));
            ("Glucides"%string, Math_round (carbs m));
            ("Lipides"%string, Math_round (fats m))]
  end.

End NutritionAnalysisCharts.

(** ** EatingHabitsScreen: the progress bars *)
Module EatingHabitsBars.
Import JS EatingHabitsScreen.

(** The machine keeps of a finite result the nearest number it represents:
    [round] stands for that step. *)
Definition rounded (round : Qc → Qc) (x : number) : number :=
  match x with
  | Num q => Num (round q)
  | _ => x
  end.

(** [progress={1 - (data.consistency / 4)}], the quotient and the difference
    each rounded. *)
Definition consistency_progress (round : Qc → Qc) (data : meal_time) : number :=
  rounded round (sub (lit 1) (rounded round (div (consistency data) (lit 4)))).

(** A rounding that keeps multiples of [1/n] and takes every other number
    down to the next one. *)
Definition to_grid (n : Z) (x : Qc) : Qc :=
  (Qc_of_Z (Qfloor (x * Qc_of_Z n)) / Qc_of_Z n)%Qc.

(** [Math.round(frequency / selectedPeriod * 100)] *)
Definition frequency_percent (frequency selectedPeriod : number) : number :=
  Math_round (mul (div frequency selectedPeriod) (lit 100)).

(** The periods of the selector, [[7, 14, 30]]. *)
Definition periods : list Z := [7; 14; 30].

End EatingHabitsBars.

(** ** NutrientChart: the time range toggle *)
Module NutrientChart.
Import JS.

(** The values of the toggle buttons. *)
Definition range_buttons : list string := ["week"; "month"; "year"]%string.

(** [useState('week')] *)
Definition initial : value := VString "week".

(** [handleTimeRangeChange]: [if (newRange !== null) setTimeRange(newRange)] *)
Definition handleTimeRangeChange (timeRange newRange : value) : value :=
  match newRange with
  | VNull => timeRange
  | _ => newRange
  end.

(** What an exclusive group passes: the value of the button pressed, or
    [null] when the selected button is pressed again. *)
Definition raised (newRange : value) : Prop :=
  newRange = VNull ∨ ∃ r, r ∈ range_buttons ∧ newRange = VString r.

(** The time range after a sequence of changes, from the initial one. *)
Definition after (changes : list value) : value :=
  foldl handleTimeRangeChange initial changes.

End NutrientChart.

(** ** frontend/src/screens/RegisterScreen.js *)
Module RegisterScreen.
Import JS.

(** [formData], an object keyed by field name. *)
Definition initial_formData : gmap string string :=
  <["username" := ""]> (
  <["email" := ""]> (
  <["password" := ""]> (
  <["confirmPassword" := ""]> (
  <["weight" := ""]> (
  <["height" := ""]> (
  <["age" := ""]> (
  <["gender" := "homme"]> (
  <["activityLevel" := "sedentaire"]> ∅))))))))%string.

Record state := {
  formData : gmap string string;
  loading : bool;
  error : string;
}.

Definition initial : state :=
  {| formData := initial_formData; loading := false; error := "" |}.

(** [setFormData(prev => ({ ...prev, [key]: value }))] *)
Definition updateFormData (key value : string) (prev : gmap string string)
  : gmap string string :=
  <[key := value]> prev.

(** [!formData.field]: an absent field and the empty string are falsy. *)
Definition missing (field : option string) : bool :=
  match field with
  | None => true
  | Some text => bool_decide (text = ""%string)
  end.

(** What [handleRegister] leaves behind: the state, the form posted to
    [/register] if any, and whether the screen was replaced by Login. *)
Record result := {
  state_after : state;
  posted : option (gmap string string);
  login_shown : bool;
}.

Definition with_error (message : string) (st : state) : state :=
  {| formData := formData st; loading := loading st; error := message |}.

Definition with_loading (l : bool) (st : state) : state :=
  {| formData := formData st; loading := l; error := error st |}.

(** [handleRegister]; [accepts] tells whether the call of [register]
    resolves (or throws) on the form posted. *)
Definition handleRegister (accepts : gmap string string → bool) (st : state) : result :=
  let formData := formData st in
  if missing (formData !! "email") || missing (formData !! "password")
     || missing (formData !! "username") then
    {| state_after := with_error "Veuillez remplir tous les champs obligatoires" st;
       posted := None; login_shown := false |}
  else if bool_decide (formData !! "password" ≠ formData !! "confirmPassword") then
    {| state_after := with_error "Les mots de passe ne correspondent pas" st;
       posted := None; login_shown := false |}
  else if accepts formData then
    {| state_after := with_loading false (with_loading true st);
       posted := Some formData; login_shown := true |}
  else
    {| state_after :=
         with_loading false (with_error "Erreur lors de l'inscription" (with_loading true st));
       posted := Some formData; login_shown := false |}.

(** The text inputs of the form, by the key they write. *)
Definition text_fields : list string :=
  ["username"; "email"; "password"; "confirmPassword"; "weight"; "height"; "age"]%string.

(** The values of the two groups of segmented buttons. *)
Definition gender_buttons : list string := ["homme"; "femme"]%string.
Definition activityLevel_buttons : list string := ["sedentaire"; "modere"; "actif"]%string.

(** What the user can do: type in a text input, press a button. *)
Inductive event :=
| TypeText (key text : string)
| PressGender (value : string)
| PressActivityLevel (value : string).

Definition raised (e : event) : Prop :=
  match e with
  | TypeText key _ => key ∈ text_fields
  | PressGender value => value ∈ gender_buttons
  | PressActivityLevel value => value ∈ activityLevel_buttons
  end.

Definition handle (formData : gmap string string) (e : event) : gmap string string :=
  match e with
  | TypeText key text => updateFormData key text formData
  | PressGender value => updateFormData "gender" value formData
  | PressActivityLevel value => updateFormData "activityLevel" value formData
  end.

(** The form after a sequence of events, from the initial one. *)
Definition after (events : list event) : gmap string string :=
  foldl handle initial_formData events.

(** The form is complete: the three mandatory fields are filled and the two
    passwords are the same. *)
Definition complete (formData : gmap string string) : Prop :=
  (∃ email, formData !! "email" = Some email ∧ email ≠ ""%string)
  ∧ (∃ password, formData !! "password" = Some password ∧ password ≠ ""%string)
  ∧ (∃ username, formData !! "username" = Some username ∧ username ≠ ""%string)
  ∧ formData !! "password" = formData !! "confirmPassword".

(** What the buttons maintain: the gender and the activity level of the
    form are button values. *)
Definition chosen (formData : gmap string string) : Prop :=
  (∃ g, g ∈ gender_buttons ∧ formData !! "gender" = Some g)
  ∧ (∃ a, a ∈ activityLevel_buttons ∧ formData !! "activityLevel" = Some a).

End RegisterScreen.

(** ** More inputs for the examples *)
Module Inputs.
Import JS.

Definition with_age (a : value) (p : ProfileScreen.profile) : ProfileScreen.profile :=
  {| ProfileScreen.weight := ProfileScreen.weight p;
     ProfileScreen.height := ProfileScreen.height p;
     ProfileScreen.age := a;
     ProfileScreen.gender := ProfileScreen.gender p;
     ProfileScreen.activityLevel := ProfileScreen.activityLevel p;
     ProfileScreen.goal := ProfileScreen.goal p |}.

(** The order of the activity levels in [levels]. *)
Definition activity_rank (a : Category.activity) : nat :=
  match a with
  | Category.Sedentary => 0
  | Category.Light => 1
  | Category.Moderate => 2
  | Category.Active => 3
  | Category.VeryActive => 4
  end.

(** Whether every character of a string is a decimal digit. *)
Fixpoint all_digits (s : string) : bool :=
  match s with
  | EmptyString => true
  | String c rest => Parse.is_digit c && all_digits rest
  end.

Definition notification (read : value) : NotificationCenter.notification :=
  {| NotificationCenter.id := 1; NotificationCenter.type := VString "goal_alert";
     NotificationCenter.priority := VString "high";
     NotificationCenter.message := "Objectif atteint";
     NotificationCenter.read := read |}.

End Inputs.

(** * Properties *)

(** ** The built-ins on sample inputs *)
Module ParseExamples.
Import JS Parse.
Local Open Scope string_scope.

Example parseFloat_integer : parseFloat (VString "70") = lit 70.
Proof. compute_done. Qed.
Example parseFloat_fraction : parseFloat (VString "0.5") = lit 0.5.
Proof. compute_done. Qed.
Example parseFloat_prefix : parseFloat (VString "  -12.5e2xyz") = lit (-1250).
Proof. compute_done. Qed.
Example parseFloat_empty : parseFloat (VString "") = NaN.
Proof. compute_done. Qed.
Example parseFloat_dot : parseFloat (VString ".") = NaN.
Proof. compute_done. Qed.
Example parseFloat_no_integer_part : parseFloat (VString ".5") = lit 0.5.
Proof. compute_done. Qed.
Example parseFloat_no_fraction : parseFloat (VString "5.e3") = lit 5000.
Proof. compute_done. Qed.
Example parseFloat_dangling_exponent : parseFloat (VString "1e+") = lit 1.
Proof. compute_done. Qed.
Example parseFloat_negative_exponent : parseFloat (VString "1e-2") = lit 0.01.
Proof. compute_done. Qed.
Example parseFloat_two_signs : parseFloat (VString "+-5") = NaN.
Proof. compute_done. Qed.
Example parseFloat_second_dot : parseFloat (VString "1.5.3") = lit 1.5.
Proof. compute_done. Qed.
Example parseFloat_infinity : parseFloat (VString "-Infinityx") = Inf true.
Proof. compute_done. Qed.
Example parseFloat_undefined : parseFloat VUndefined = NaN.
Proof. compute_done. Qed.
Example parseInt_truncates : parseInt (VString "30.7") = lit 30.
Proof. compute_done. Qed.
Example parseInt_hexadecimal : parseInt (VString "-0x1A") = lit (-26).
Proof. compute_done. Qed.
Example parseInt_bare_prefix : parseInt (VString "0x") = NaN.
Proof. compute_done. Qed.
Example parseInt_leading_zero : parseInt (VString "08") = lit 8.
Proof. compute_done. Qed.
Example parseInt_stops_at_exponent : parseInt (VString "1e3") = lit 1.
Proof. compute_done. Qed.
Example Math_round_tie : Math_round (lit 2.5) = lit 3 ∧ Math_round (lit (-2.5)) = lit (-2).
Proof. split; compute_done. Qed.

End ParseExamples.

Import JS Parse Obj Category Outcome Design.
Local Open Scope Qc_scope.

(** ** ProfileScreen *)
Section ProfileScreenFacts.
Import ProfileScreen.

Lemma getActivityMultiplier_recognised p a :
  activityLevel p = VString (activity_code a) →
  getActivityMultiplier p = PNumber (Num (multiplier a)).
Proof.
  intros H. unfold getActivityMultiplier. rewrite H.
  destruct a; vm_compute; reflexivity.
Qed.

Lemma calculateBMR_homme p :
  gender p = VString "homme" →
  calculateBMR p =
    add (sub (add (mul (lit 10) (parseFloat (weight p)))
                  (mul (lit 6.25) (parseFloat (height p))))
             (mul (lit 5) (parseInt (age p)))) (lit 5).
Proof. intros H. unfold calculateBMR. rewrite H. reflexivity. Qed.

Lemma calculateBMR_other p :
  gender p ≠ VString "homme" →
  calculateBMR p =
    sub (sub (add (mul (lit 10) (parseFloat (weight p)))
                  (mul (lit 6.25) (parseFloat (height p))))
             (mul (lit 5) (parseInt (age p)))) (lit 161).
Proof.
  intros H. unfold calculateBMR.
  destruct (gender p) as [| |b|s]; try reflexivity.
  unfold strict_equals_string. rewrite bool_decide_eq_false_2; [reflexivity|].
  intros ->. by apply H.
Qed.

(** The screen before the profile is loaded: every field is the empty
    string, and both figures are [NaN]. *)
Lemma calculateBMR_initial :
  calculateBMR initial = NaN ∧ calculateTDEE initial = NaN.
Proof. split; compute_done. Qed.

(** C1, as the code has it.  For a profile whose weight, height and age
    read as numbers with weight > 0, height > 0 and age >= 1, [calculateBMR]
    is 10*weight + 6.25*height - 5*age + 5 for a male profile (['homme'])
    and 10*weight + 6.25*height - 5*age - 161 for a female one (['femme']),
    and [calculateTDEE] is that value times the multiplier of the activity
    level: 1.2, 1.375, 1.55, 1.725, 1.9.  On (70, 175, 30, male) the value
    is 1648.75. *)
Theorem calculateBMR_calculateTDEE_formula p (w h a : Qc) s act :
  parseFloat (weight p) = Num w →
  parseFloat (height p) = Num h →
  parseInt (age p) = Num a →
  0 < w → 0 < h → 1 ≤ a →
  gender p = VString (gender_code s) →
  activityLevel p = VString (activity_code act) →
  calculateBMR p = Num (Q2Qc 10 * w + Q2Qc 6.25 * h - Q2Qc 5 * a + sex_constant s)
  ∧ calculateTDEE p =
      Num ((Q2Qc 10 * w + Q2Qc 6.25 * h - Q2Qc 5 * a + sex_constant s) * multiplier act).
Proof.
  intros Hw Hh Ha _ _ _ Hg Hact.
  assert (calculateBMR p =
    Num (Q2Qc 10 * w + Q2Qc 6.25 * h - Q2Qc 5 * a + sex_constant s)) as Hbmr.
  { destruct s.
    - rewrite calculateBMR_homme by exact Hg. rewrite Hw, Hh, Ha. reflexivity.
    - rewrite calculateBMR_other by (rewrite Hg; discriminate).
      rewrite Hw, Hh, Ha. reflexivity. }
  split; [exact Hbmr|].
  unfold calculateTDEE.
  rewrite Hbmr, (getActivityMultiplier_recognised p act Hact). reflexivity.
Qed.

(** The formula of C1 on the profile (70, 175, 30, male, moderate): the
    basal rate is 1648.75 and the daily expenditure 2555.5625. *)
Lemma calculateBMR_example :
  calculateBMR Sample.male_70 = lit 1648.75
  ∧ calculateTDEE Sample.male_70 = lit 2555.5625.
Proof.
  destruct (calculateBMR_calculateTDEE_formula Sample.male_70
              (Q2Qc 70) (Q2Qc 175) (Q2Qc 30) Male Moderate) as [Hb Ht];
    [compute_done .. |].
  rewrite Hb, Ht. split; compute_done.
Defined.

(** C1 as stated gives 1753.75 for the profile (70, 175, 30, male); the
    formula it quotes, and the code, give 1648.75. *)
Lemma calculateBMR_example_is_not_1753_75 :
  calculateBMR Sample.male_70 = lit 1648.75
  ∧ calculateBMR Sample.male_70 ≠ lit 1753.75
  ∧ Q2Qc 10 * Q2Qc 70 + Q2Qc 6.25 * Q2Qc 175 - Q2Qc 5 * Q2Qc 30 + Q2Qc 5 ≠ Q2Qc 1753.75.
Proof. repeat split; compute_done. Qed.

(** C9.  [calculateBMR] takes the male constant +5 only when the gender is
    exactly the string ['homme']; for every other value of the field, a
    string such as ['male'] or ['femme'], the empty string or an absent
    field, the call returns the number computed with the female constant
    -161, and signals nothing. *)
Theorem calculateBMR_female_constant_unless_homme p :
  (gender p = VString "homme" →
   call calculateBMR p =
     Returned (add (sub (add (mul (lit 10) (parseFloat (weight p)))
                             (mul (lit 6.25) (parseFloat (height p))))
                        (mul (lit 5) (parseInt (age p)))) (lit 5)))
  ∧ (gender p ≠ VString "homme" →
     call calculateBMR p =
       Returned (sub (sub (add (mul (lit 10) (parseFloat (weight p)))
                               (mul (lit 6.25) (parseFloat (height p))))
                          (mul (lit 5) (parseInt (age p)))) (lit 161))).
Proof.
  split; intros H; unfold call; f_equal.
  - by apply calculateBMR_homme.
  - by apply calculateBMR_other.
Qed.

(** C9 on the English ['male'], on an absent gender and on the empty string
    the screen starts with, 10*70 + 6.25*175 - 5*30 - 161 = 1482.75, against
    1648.75 for ['homme']. *)
Lemma calculateBMR_female_constant_examples :
  call calculateBMR (Sample.with_gender (VString "male") Sample.male_70)
    = Returned (lit 1482.75)
  ∧ call calculateBMR (Sample.with_gender VUndefined Sample.male_70)
    = Returned (lit 1482.75)
  ∧ call calculateBMR (Sample.with_gender (VString "") Sample.male_70)
    = Returned (lit 1482.75)
  ∧ call calculateBMR Sample.male_70 = Returned (lit 1648.75).
Proof.
  repeat split.
  - rewrite (proj2 (calculateBMR_female_constant_unless_homme
                      (Sample.with_gender (VString "male") Sample.male_70)));
      [compute_done | discriminate].
  - rewrite (proj2 (calculateBMR_female_constant_unless_homme
                      (Sample.with_gender VUndefined Sample.male_70)));
      [compute_done | discriminate].
  - rewrite (proj2 (calculateBMR_female_constant_unless_homme
                      (Sample.with_gender (VString "") Sample.male_70)));
      [compute_done | discriminate].
  - rewrite (proj1 (calculateBMR_female_constant_unless_homme Sample.male_70));
      [compute_done | reflexivity].
Defined.

(** The five keys of [levels]. *)
Lemma levels_lookup_None (k : string) :
  k ∉ activity_code <$> [Sedentary; Light; Moderate; Active; VeryActive] →
  levels !! k = None.
Proof.
  intros Hk. unfold levels.
  rewrite !lookup_insert_ne; [apply lookup_empty | ..];
    intros <-; apply Hk; set_solver.
Qed.

(** A key that is neither one of the five nor a property of
    [Object.prototype] gets the sedentary multiplier. *)
Lemma getActivityMultiplier_default p (k : string) :
  activityLevel p = VString k →
  k ∉ activity_code <$> [Sedentary; Light; Moderate; Active; VeryActive] →
  k ∉ Object_prototype →
  getActivityMultiplier p = PNumber (lit 1.2)
  ∧ calculateTDEE p = mul (calculateBMR p) (lit 1.2).
Proof.
  intros Hact Hk Hproto.
  assert (getActivityMultiplier p = PNumber (lit 1.2)) as Hm.
  { unfold getActivityMultiplier, get. rewrite Hact. cbn [ToString].
    rewrite (levels_lookup_None k Hk), bool_decide_eq_false_2 by exact Hproto.
    reflexivity. }
  split; [exact Hm|]. unfold calculateTDEE. rewrite Hm. reflexivity.
Qed.

(** C10 on the activity level ['toString'], which is none of the five keys:
    the read [levels['toString']] finds the method every object literal
    inherits, the [|| 1.2] fallback is not taken, and the expenditure is
    [NaN] instead of the sedentary 1.2 * 1648.75 = 1978.5. *)
Theorem getActivityMultiplier_inherited_property :
  getActivityMultiplier (Sample.with_activityLevel (VString "toString") Sample.male_70)
    = PBuiltin "toString"
  ∧ getActivityMultiplier (Sample.with_activityLevel (VString "toString") Sample.male_70)
    ≠ PNumber (lit 1.2)
  ∧ calculateTDEE (Sample.with_activityLevel (VString "toString") Sample.male_70) = NaN
  ∧ calculateTDEE (Sample.with_activityLevel (VString "sedentaire") Sample.male_70)
    = lit 1978.5.
Proof. repeat split; compute_done. Qed.

End ProfileScreenFacts.

(** ** GoalSettings *)
Section GoalSettingsFacts.
Import ProfileScreen GoalSettings.

Lemma seven_is_not_zero : is_zero (Q2Qc 7) = false.
Proof. compute_done. Qed.

(** The adjustment of a selection whose weekly change reads as the number
    [r], whatever its sign. *)
Lemma adjustment_of_rate g (r : Qc) :
  parseFloat (weeklyChange g) = Num r →
  adjustment g =
    Num (if strict_equals_string (type g) "perte" then - (Q2Qc 7700 * r / Q2Qc 7)
         else if strict_equals_string (type g) "prise" then Q2Qc 7700 * r / Q2Qc 7
         else 0).
Proof.
  intros Hr. unfold adjustment. rewrite Hr.
  destruct (strict_equals_string (type g) "perte").
  - cbn [mul neg div lit]. rewrite seven_is_not_zero. f_equal.
    unfold Qcdiv. ring.
  - destruct (strict_equals_string (type g) "prise").
    + cbn [mul div lit]. rewrite seven_is_not_zero. reflexivity.
    + apply (f_equal Num). apply Qc_is_canon. reflexivity.
Qed.

(** The component as it starts (maintain, 0.5 kg a week) shows the base
    calories; an unknown goal type is treated like maintain. *)
Lemma calculateDailyCalories_initial :
  calculateDailyCalories GoalSettings.initial = lit 2000
  ∧ calculateDailyCalories (Sample.selection "autre" "1") = lit 2000
  ∧ calculateDailyCalories (Sample.selection "prise" "0.25") = lit 2275.
Proof. repeat split; compute_done. Qed.

(** For a goal selection whose weekly rate reads as a number [r >= 0], the
    daily delta is (7700 × r)/7 added for a gain (['prise']), subtracted for
    a loss (['perte']) and zero to maintain (['maintien']); it is added to
    the base calories of the component and the sum rounded. *)
Lemma calculateDailyCalories_delta g (r : Qc) goal :
  parseFloat (weeklyChange g) = Num r →
  0 ≤ r →
  type g = VString (goal_code goal) →
  adjustment g = Num (delta goal r)
  ∧ calculateDailyCalories g = Math_round (add baseCalories (Num (delta goal r))).
Proof.
  intros Hr _ Hgoal.
  assert (adjustment g = Num (delta goal r)) as Hadj.
  { rewrite (adjustment_of_rate g r Hr), Hgoal. by destruct goal. }
  split; [exact Hadj|]. unfold calculateDailyCalories. by rewrite Hadj.
Qed.

(** On the selection (lose, 0.5 kg a week) the delta is -550. *)
Lemma calculateDailyCalories_delta_example :
  adjustment (Sample.selection "perte" "0.5") = lit (-550)
  ∧ calculateDailyCalories (Sample.selection "perte" "0.5")
    = Math_round (add baseCalories (lit (-550))).
Proof.
  destruct (calculateDailyCalories_delta (Sample.selection "perte" "0.5")
              (Q2Qc 0.5) Lose) as [Ha Hc]; [compute_done .. |].
  rewrite Ha, Hc. split; compute_done.
Defined.

(** The figures of the female profile (60, 165, 25, active) losing 0.5 kg a
    week: the expenditure is 1345.25 × 1.725 = 2320.55625, not 2234.30625;
    the calorie goal the component returns is 1450 and the rounding of
    expenditure plus delta is 1771, neither near 1684. *)
Lemma calorie_goal_example_is_not_1684 :
  calculateBMR Sample.female_60 = lit 1345.25
  ∧ calculateTDEE Sample.female_60 = lit 2320.55625
  ∧ calculateTDEE Sample.female_60 ≠ lit 2234.30625
  ∧ adjustment (Sample.selection "perte" "0.5") = lit (-550)
  ∧ calculateDailyCalories (Sample.selection "perte" "0.5") = lit 1450
  ∧ Math_round (add (calculateTDEE Sample.female_60)
                    (adjustment (Sample.selection "perte" "0.5"))) = lit 1771.
Proof. repeat split; compute_done. Qed.

Lemma calculateBMR_of_numbers p (w h a : Qc) :
  parseFloat (weight p) = Num w →
  parseFloat (height p) = Num h →
  parseInt (age p) = Num a →
  calculateBMR p = Num (Q2Qc 10 * w + Q2Qc 6.25 * h - Q2Qc 5 * a + gender_constant p).
Proof.
  intros Hw Hh Ha. unfold calculateBMR, gender_constant. rewrite Hw, Hh, Ha.
  by destruct (strict_equals_string (gender p) "homme").
Qed.

(** C3, as the code has it.  On an input the design calls invalid (weight or
    height <= 0, age < 1, weekly rate < 0) whose fields read as numbers, no
    call fails: [calculateBMR] returns the equation on the numbers given and
    [calculateDailyCalories] the rounding of base calories plus the delta of
    the rate given; no field is replaced by a default or corrected value. *)
Theorem invalid_profile_is_computed p g (w h a r : Qc) :
  parseFloat (weight p) = Num w →
  parseFloat (height p) = Num h →
  parseInt (age p) = Num a →
  parseFloat (weeklyChange g) = Num r →
  invalid_input p g = true →
  call calculateBMR p
    = Returned (Num (Q2Qc 10 * w + Q2Qc 6.25 * h - Q2Qc 5 * a + gender_constant p))
  ∧ call calculateDailyCalories g
    = Returned (Math_round (add baseCalories
        (Num (if strict_equals_string (type g) "perte" then - (Q2Qc 7700 * r / Q2Qc 7)
              else if strict_equals_string (type g) "prise" then Q2Qc 7700 * r / Q2Qc 7
              else 0))))
  ∧ call calculateBMR p ≠ Failed InvalidProfile
  ∧ call calculateDailyCalories g ≠ Failed InvalidProfile.
Proof.
  intros Hw Hh Ha Hr _. unfold call.
  rewrite (calculateBMR_of_numbers p w h a Hw Hh Ha).
  unfold calculateDailyCalories. rewrite (adjustment_of_rate g r Hr).
  repeat split; discriminate.
Qed.

(** C3 on a weight of -5 kg and a weekly rate of -0.5 kg: 10*(-5) + 1093.75
    - 150 + 5 = 898.75, and a loss at rate -0.5 adds 550 to the base. *)
Lemma invalid_profile_is_computed_example :
  call calculateBMR (Sample.with_weight (VString "-5") Sample.male_70)
    = Returned (lit 898.75)
  ∧ call calculateDailyCalories (Sample.selection "perte" "-0.5")
    = Returned (Math_round (add baseCalories (lit 550))).
Proof.
  destruct (invalid_profile_is_computed
              (Sample.with_weight (VString "-5") Sample.male_70)
              (Sample.selection "perte" "-0.5")
              (Q2Qc (-5)) (Q2Qc 175) (Q2Qc 30) (Q2Qc (-0.5)))
    as (Hb & Hc & _); [compute_done .. |].
  rewrite Hb, Hc. split; compute_done.
Defined.

(** C3 as stated: a weight of -5 kg and a weekly rate of -0.5 kg are invalid
    inputs, yet both calls return a number and none fails. *)
Lemma invalid_profile_is_not_rejected :
  invalid_input (Sample.with_weight (VString "-5") Sample.male_70)
                (Sample.selection "perte" "-0.5") = true
  ∧ call calculateBMR (Sample.with_weight (VString "-5") Sample.male_70)
    = Returned (lit 898.75)
  ∧ call calculateDailyCalories (Sample.selection "perte" "-0.5")
    = Returned (lit 2550)
  ∧ call calculateBMR (Sample.with_weight (VString "-5") Sample.male_70)
    ≠ Failed InvalidProfile
  ∧ call calculateDailyCalories (Sample.selection "perte" "-0.5")
    ≠ Failed InvalidProfile.
Proof. repeat split; compute_done. Qed.




End GoalSettingsFacts.

(** ** NutritionAnalysisScreen *)
Section NutritionAnalysisScreenFacts.
Import NutritionAnalysisScreen.

(** The note is printed exactly when the signed slope exceeds 10. *)
Lemma significance_iff t :
  is_Some (significance t) ↔ gt (slope t) (lit 10) = true.
Proof.
  unfold significance. destruct (gt (slope t) (lit 10)); split;
    eauto; try discriminate. by intros [? ?].
Qed.

(** On a slope that is not negative the note agrees with the magnitude
    classification of the design. *)
Lemma significance_of_increase t (s : Qc) :
  slope t = Num s → 0 ≤ s →
  is_Some (significance t) ↔ significant (slope t) = true.
Proof.
  intros Hs Hpos. rewrite significance_iff, Hs.
  unfold significant, Math_abs, is_negative.
  rewrite bool_decide_eq_false_2; [reflexivity|].
  by apply Qcle_not_lt.
Qed.

(** C7 on a slope of -50 kcal a day: its magnitude exceeds the threshold 10,
    as that of the slope +50 does, yet only the increase gets the note
    (changement significatif); the decrease prints the direction alone. *)
Theorem significance_misses_decrease :
  significant (slope (Sample.trend_of "decreasing" (-50))) = true
  ∧ significant (slope (Sample.trend_of "increasing" 50)) = true
  ∧ significance (Sample.trend_of "increasing" 50) = Some " (changement significatif)"%string
  ∧ significance (Sample.trend_of "decreasing" (-50)) = None
  ∧ renderCaloriesTrend (Some (Sample.trend_of "decreasing" (-50)))
    = Some "Tendance : decreasing"%string.
Proof. repeat split; vm_compute; reflexivity. Qed.

End NutritionAnalysisScreenFacts.

(** ** EatingHabitsScreen *)
Section EatingHabitsScreenFacts.
Import EatingHabitsScreen.

(** The two thresholds of the tiers, 1 and 2. *)
Lemma regularity_of_thresholds d :
  (regularity_of d = Excellente ↔ lt (consistency d) (lit 1) = true)
  ∧ (regularity_of d = Bonne ↔
       lt (consistency d) (lit 1) = false ∧ lt (consistency d) (lit 2) = true)
  ∧ (regularity_of d = A_ameliorer ↔
       lt (consistency d) (lit 1) = false ∧ lt (consistency d) (lit 2) = false).
Proof.
  unfold regularity_of.
  destruct (lt (consistency d) (lit 1)), (lt (consistency d) (lit 2));
    repeat split; intros; try discriminate; try tauto;
    repeat match goal with H : _ ∧ _ |- _ => destruct H end; discriminate.
Qed.

Lemma lt_le_trans (x y z : number) : le x y = true → lt y z = true → lt x z = true.
Proof.
  destruct x as [|a|[]], y as [|b|[]], z as [|c|[]]; cbn; try done.
  rewrite negb_true_iff, !bool_decide_eq_true, bool_decide_eq_false.
  intros Hab Hbc. apply Qcnot_lt_le in Hab. by eapply Qcle_lt_trans.
Qed.

(** C8.  The tier is monotone in the consistency score: of two scores
    c1 <= c2 the first gets a tier at least as good, in the order
    Excellente > Bonne > À améliorer; the boundaries are the thresholds 1 and
    2 ([regularity_of_thresholds]). *)
Theorem regularity_of_monotone d1 d2 :
  le (consistency d1) (consistency d2) = true →
  (tier_rank (regularity_of d2) ≤ tier_rank (regularity_of d1))%nat.
Proof.
  intros Hle. unfold regularity_of.
  destruct (lt (consistency d2) (lit 1)) eqn:H1.
  { by rewrite (lt_le_trans _ _ _ Hle H1). }
  destruct (lt (consistency d2) (lit 2)) eqn:H2.
  { rewrite (lt_le_trans _ _ _ Hle H2).
    destruct (lt (consistency d1) (lit 1)); cbn; lia. }
  cbn. lia.
Qed.

(** The lines printed for two meal types. *)
Lemma renderMealTimingSection_example :
  renderMealTimingSection
    [("breakfast"%string, Sample.meal_time_of 0.4);
     ("dinner"%string, Sample.meal_time_of 2.5)]
  = [("breakfast", "Régularité: Excellente"); ("dinner", "Régularité: À améliorer")]%string.
Proof. reflexivity. Qed.

(** C8 on the scores 0.5 and 1.5: Excellente against Bonne. *)
Lemma regularity_of_monotone_example :
  (tier_rank (regularity_of (Sample.meal_time_of 1.5))
   ≤ tier_rank (regularity_of (Sample.meal_time_of 0.5)))%nat
  ∧ regularity_of (Sample.meal_time_of 0.5) = Excellente
  ∧ regularity_of (Sample.meal_time_of 1.5) = Bonne
  ∧ regularity_of (Sample.meal_time_of 2) = A_ameliorer.
Proof.
  split; [apply regularity_of_monotone; compute_done|].
  repeat split; compute_done.
Defined.

End EatingHabitsScreenFacts.

(** ** From [Qc] to [Q]: the value of a canonical fraction *)
Section QcFacts.

Lemma this_plus (a b : Qc) : (this (a + b) == this a + this b)%Q.
Proof. apply Qred_correct. Qed.

Lemma this_mult (a b : Qc) : (this (a * b) == this a * this b)%Q.
Proof. apply Qred_correct. Qed.

Lemma this_opp (a : Qc) : (this (- a) == - this a)%Q.
Proof. apply Qred_correct. Qed.

Lemma this_minus (a b : Qc) : (this (a - b) == this a - this b)%Q.
Proof. unfold Qcminus. rewrite this_plus, this_opp. reflexivity. Qed.

Lemma this_Q2Qc (q : Q) : (this (Q2Qc q) == q)%Q.
Proof. apply Qred_correct. Qed.

Lemma this_of_Z (z : Z) : (this (Qc_of_Z z) == inject_Z z)%Q.
Proof. reflexivity. Qed.

Lemma this_eq (a b : Qc) : a = b → (this a == this b)%Q.
Proof. intros ->. reflexivity. Qed.

End QcFacts.

Ltac qc_to_q :=
  unfold Qcle, Qclt in *;
  repeat (rewrite ?this_plus, ?this_mult, ?this_minus, ?this_opp,
            ?this_Q2Qc, ?this_of_Z, ?inject_Z_plus in * ).

(** ** GoalCalculator *)
Section GoalCalculatorFacts.
Import GoalCalculator.

Lemma Qc_of_Z_succ (z : Z) : Qc_of_Z (z + 1) = Qc_of_Z z + 1.
Proof.
  apply Qc_is_canon. rewrite this_plus, !this_of_Z, inject_Z_plus. reflexivity.
Qed.

Lemma floorQc_bounds (y : Qc) :
  Qc_of_Z (floorQc y) ≤ y ∧ y < Qc_of_Z (floorQc y) + 1.
Proof.
  unfold floorQc, Qcle, Qclt. rewrite this_plus, !this_of_Z. split.
  - apply Qfloor_le.
  - pose proof (Qlt_floor y) as H. by rewrite inject_Z_plus in H.
Qed.

Lemma ceilingQc_bounds (y : Qc) :
  y ≤ Qc_of_Z (ceilingQc y) ∧ Qc_of_Z (ceilingQc y) - 1 < y.
Proof.
  unfold ceilingQc, Qcle, Qclt. rewrite this_minus, !this_of_Z. split.
  - apply Qle_ceiling.
  - pose proof (Qceiling_lt y) as H. unfold Z.sub in H.
    rewrite inject_Z_plus in H. exact H.
Qed.

(** A reported gram amount lies within the tolerance of its rule. *)
Lemma round_grams_within rule (x : Qc) :
  x - gram_tolerance rule ≤ round_grams rule x
  ∧ round_grams rule x ≤ x + gram_tolerance rule.
Proof.
  destruct rule; cbn [round_grams gram_tolerance].
  - split; qc_to_q; lra.
  - destruct (floorQc_bounds (x + Q2Qc (1 # 2))) as [Hlo Hhi].
    revert Hlo Hhi. generalize (Qc_of_Z (floorQc (x + Q2Qc (1 # 2)))).
    intros f Hlo Hhi. split; qc_to_q; lra.
  - destruct (floorQc_bounds x) as [Hlo Hhi].
    repeat case_bool_decide; [| | destruct (Z.even (floorQc x))];
      rewrite ?Qc_of_Z_succ; revert Hlo Hhi;
      repeat match goal with H : context [floorQc x] |- _ => revert H end;
      generalize (Qc_of_Z (floorQc x)); intros f; intros;
      split; qc_to_q; lra.
  - destruct (floorQc_bounds x) as [Hlo Hhi].
    revert Hlo Hhi. generalize (Qc_of_Z (floorQc x)).
    intros f Hlo Hhi. split; qc_to_q; lra.
  - destruct (ceilingQc_bounds x) as [Hlo Hhi].
    revert Hlo Hhi. generalize (Qc_of_Z (ceilingQc x)).
    intros f Hlo Hhi. split; qc_to_q; lra.
Qed.

(** The exact shares of the default split add up to the calorie goal. *)
Lemma default_split_exact (c : Qc) :
  c * protein_pct default_split / Q2Qc 4 * Q2Qc 4
  + c * carb_pct default_split / Q2Qc 4 * Q2Qc 4
  + c * fat_pct default_split / Q2Qc 9 * Q2Qc 9 = c.
Proof.
  assert (∀ a d : Qc, d ≠ 0 → c * a / d * d = c * a) as Hdiv.
  { intros a d Hd. by field. }
  rewrite !Hdiv by done.
  rewrite <- !Qcmult_plus_distr_r.
  replace (protein_pct default_split + carb_pct default_split + fat_pct default_split)
    with 1 by (apply Qc_is_canon; reflexivity).
  apply Qcmult_1_r.
Qed.

(** C5.  For the targets the macro split derives from a calorie goal under
    the default policy (20% protein, 50% carbohydrate, 30% fat, divided by 4,
    4 and 9 kcal per gram), protein_goal·4 + carb_goal·4 + fat_goal·9 differs
    from calorie_goal by at most the rounding tolerance: one rounding step of
    each macro, that is (4 + 4 + 9) times the gram tolerance of the rounding
    rule; nothing when the grams are not rounded, 8.5 kcal for the nearest
    gram, 17 kcal for whole grams below or above. *)
Theorem macro_sum_within_rounding_tolerance rule (c : Qc) :
  calorie_goal (macro_targets default_split rule c) - rounding_tolerance rule
    ≤ macro_calories (macro_targets default_split rule c)
  ∧ macro_calories (macro_targets default_split rule c)
    ≤ calorie_goal (macro_targets default_split rule c) + rounding_tolerance rule.
Proof.
  unfold macro_calories, rounding_tolerance. cbn [macro_targets calorie_goal
    protein_goal carb_goal fat_goal].
  pose proof (default_split_exact c) as Hsum. apply this_eq in Hsum.
  destruct (round_grams_within rule (c * protein_pct default_split / Q2Qc 4)) as [Hp1 Hp2].
  destruct (round_grams_within rule (c * carb_pct default_split / Q2Qc 4)) as [Hc1 Hc2].
  destruct (round_grams_within rule (c * fat_pct default_split / Q2Qc 9)) as [Hf1 Hf2].
  revert Hsum Hp1 Hp2 Hc1 Hc2 Hf1 Hf2.
  generalize (round_grams rule (c * protein_pct default_split / Q2Qc 4)).
  generalize (round_grams rule (c * carb_pct default_split / Q2Qc 4)).
  generalize (round_grams rule (c * fat_pct default_split / Q2Qc 9)).
  generalize (c * protein_pct default_split / Q2Qc 4).
  generalize (c * carb_pct default_split / Q2Qc 4).
  generalize (c * fat_pct default_split / Q2Qc 9).
  generalize (gram_tolerance rule).
  intros tol xf xc xp gf gc gp Hsum Hp1 Hp2 Hc1 Hc2 Hf1 Hf2.
  split; qc_to_q; lra.
Qed.

(** Under every rule the deviation stays within 17 kcal, one gram of each
    macro. *)
Lemma rounding_tolerance_le_17 rule : rounding_tolerance rule ≤ Q2Qc 17.
Proof. destruct rule; compute_done. Qed.

(** The values of the tolerance, and the invariant on a goal of 2000 kcal
    with whole grams: 100 g, 250 g and 67 g carry 2003 kcal. *)
Lemma macro_sum_example :
  rounding_tolerance Unrounded = 0
  ∧ rounding_tolerance Nearest = Q2Qc 8.5
  ∧ rounding_tolerance Down = Q2Qc 17
  ∧ macro_calories (macro_targets default_split Nearest (Q2Qc 2000)) = Q2Qc 2003
  ∧ macro_calories (macro_targets default_split Unrounded (Q2Qc 2000)) = Q2Qc 2000.
Proof. repeat split; compute_done. Qed.

End GoalCalculatorFacts.

(** ** Aggregator *)
Section AggregatorFacts.
Import Aggregator.

Lemma add_totals_comm (a b : Totals) : add_totals a b = add_totals b a.
Proof. unfold add_totals. f_equal; apply Qcplus_comm. Qed.

Lemma add_totals_assoc (a b c : Totals) :
  add_totals a (add_totals b c) = add_totals (add_totals a b) c.
Proof. unfold add_totals. cbn. f_equal; apply Qcplus_assoc. Qed.

Lemma add_totals_no_totals (a : Totals) : add_totals a no_totals = a.
Proof. destruct a. unfold add_totals. cbn. f_equal; apply Qcplus_0_r. Qed.

(** The sum of two aggregates is commutative. *)
Lemma combine_comm (a b : PeriodAggregate) : combine a b = combine b a.
Proof. unfold combine. f_equal; try apply add_totals_comm. lia. Qed.

(** The sum of aggregates is associative. *)
Lemma combine_assoc (a b c : PeriodAggregate) :
  combine a (combine b c) = combine (combine a b) c.
Proof. unfold combine. cbn. f_equal; try apply add_totals_assoc. lia. Qed.

Lemma combine_empty_aggregate (a : PeriodAggregate) : combine a empty_aggregate = a.
Proof.
  destruct a. unfold combine. cbn. f_equal; try apply add_totals_no_totals. lia.
Qed.

Context (time_zone : Type) (period_key : granularity → time_zone → Z → Z).
Context (g : granularity) (tz : time_zone).

(** Two steps of the fold commute. *)
Lemma add_entry_comm (e1 e2 : MealEntry) (m : gmap Z PeriodAggregate) :
  add_entry time_zone period_key g tz e1 (add_entry time_zone period_key g tz e2 m)
  = add_entry time_zone period_key g tz e2 (add_entry time_zone period_key g tz e1 m).
Proof.
  unfold add_entry.
  destruct (decide (period_key g tz (timestamp e1) = period_key g tz (timestamp e2)))
    as [Heq|Hne].
  - rewrite Heq, !lookup_insert_eq, !insert_insert_eq. simpl.
    f_equal. rewrite !combine_assoc. f_equal. apply combine_comm.
  - rewrite !lookup_insert_ne by done. by apply insert_insert_ne.
Qed.

(** The buckets do not depend on the order of the entries. *)
Lemma buckets_of_permutation (l1 l2 : list MealEntry) :
  l1 ≡ₚ l2 →
  buckets_of time_zone period_key g tz l1 = buckets_of time_zone period_key g tz l2.
Proof.
  intros Hperm. unfold buckets_of.
  apply (foldr_permutation (=) _ _ _ _ ); [|exact Hperm].
  intros _ e1 _ e2 m _ _ _. apply add_entry_comm.
Qed.

(** C6.  The Aggregator gives identical period aggregates for every
    permutation of the same collection of meal entries, with or without a
    date range: the fold adds the entries with a commutative and associative
    sum ([combine_comm], [combine_assoc]). *)
Theorem aggregate_permutation range (l1 l2 : list MealEntry) :
  l1 ≡ₚ l2 →
  aggregate time_zone period_key g tz range l1
  = aggregate time_zone period_key g tz range l2.
Proof.
  intros Hperm. unfold aggregate.
  by rewrite (buckets_of_permutation l1 l2 Hperm).
Qed.

End AggregatorFacts.

(** C6 on two meals of one day and one of the next, entered in two orders,
    with the day of an instant as the period. *)
Lemma aggregate_permutation_example :
  Aggregator.aggregate Z Sample.local_day Aggregator.Day 3600 None
    [Sample.entry 1 30000 Aggregator.Lunch 500;
     Sample.entry 2 100000 Aggregator.Breakfast 300;
     Sample.entry 3 60000 Aggregator.Dinner 700]
  = Aggregator.aggregate Z Sample.local_day Aggregator.Day 3600 None
    [Sample.entry 3 60000 Aggregator.Dinner 700;
     Sample.entry 1 30000 Aggregator.Lunch 500;
     Sample.entry 2 100000 Aggregator.Breakfast 300].
Proof.
  apply aggregate_permutation.
  apply (Permutation_cons_app [_] [_]). apply perm_swap.
Defined.

(** The aggregates of those three meals: 1200 kcal in two entries on day 0,
    300 kcal in one entry on day 1; no entries give no aggregate. *)
Lemma aggregate_example :
  (λ b, (b.1, Aggregator.total_calories (Aggregator.totals b.2),
         Aggregator.entry_count b.2))
    <$> Aggregator.aggregate Z Sample.local_day Aggregator.Day 3600 None
          [Sample.entry 1 30000 Aggregator.Lunch 500;
           Sample.entry 2 100000 Aggregator.Breakfast 300;
           Sample.entry 3 60000 Aggregator.Dinner 700]
  = [(0%Z, Q2Qc 1200, 2%nat); (1%Z, Q2Qc 300, 1%nat)]
  ∧ Aggregator.aggregate Z Sample.local_day Aggregator.Day 3600 None [] = [].
Proof. split; compute_done. Qed.

(** ** GoalSettings: the base of the calorie goal *)
Section GoalSettingsBase.
Import ProfileScreen GoalSettings.

(** A rounded sum that is a whole number [z] lies within a half of it. *)
Lemma Math_round_add_inv (t d : Qc) (z : Z) :
  Math_round (add (Num t) (Num d)) = Num (Qc_of_Z z) →
  (Qc_of_Z z - d - Q2Qc (1 # 2) ≤ t ∧ t < Qc_of_Z z - d + Q2Qc (1 # 2))%Qc.
Proof.
  intros H.
  assert (Qc_of_Z (Qfloor (t + d + Q2Qc (1 # 2))%Qc) = Qc_of_Z z) as Hz%this_eq
    by (unfold Math_round, add in H; congruence).
  pose proof (Qfloor_le (t + d + Q2Qc (1 # 2))%Qc) as H1.
  pose proof (Qlt_floor (t + d + Q2Qc (1 # 2))%Qc) as H2.
  rewrite inject_Z_plus in H2.
  rewrite !this_of_Z in Hz. rewrite Hz in H1, H2.
  unfold Qcle, Qclt. rewrite !this_plus, !this_minus, !this_of_Z, !this_Q2Qc.
  rewrite !this_plus, this_Q2Qc in H1, H2.
  change (inject_Z 1) with 1%Q in H2.
  revert H1 H2. generalize (inject_Z z). intros f H1 H2.
  split; lra.
Qed.

(** The selections the buttons offer have a whole delta, and the component
    returns 2000 plus that delta. *)
Lemma calculateDailyCalories_offered g :
  GoalSettingsControls.offered g →
  ∃ d : Z, adjustment g = Num (Qc_of_Z d)
    ∧ calculateDailyCalories g = Num (Qc_of_Z (2000 + d)).
Proof.
  intros [(t & Ht & Hty) (w & Hw & Hwe)].
  unfold calculateDailyCalories, adjustment. rewrite Hty, Hwe.
  unfold GoalSettingsControls.type_buttons in Ht.
  unfold GoalSettingsControls.weeklyChange_buttons in Hw.
  repeat (apply elem_of_cons in Ht as [->|Ht]); [| | |by apply elem_of_nil in Ht];
    repeat (apply elem_of_cons in Hw as [->|Hw]); try (by apply elem_of_nil in Hw).
  - exists (-275)%Z. split; compute_done.
  - exists (-550)%Z. split; compute_done.
  - exists (-1100)%Z. split; compute_done.
  - exists 0%Z. split; compute_done.
  - exists 0%Z. split; compute_done.
  - exists 0%Z. split; compute_done.
  - exists 275%Z. split; compute_done.
  - exists 550%Z. split; compute_done.
  - exists 1100%Z. split; compute_done.
Qed.

(** C2: the calorie goal is to be the rounding of the expenditure of the
    profile plus the delta, and the component takes the constant 2000 the
    source marks as to be replaced by the profile's calculation.  For every
    selection the buttons offer and every profile whose expenditure is a
    number at least 1 away from 2000, the goal returned is 2000 plus the
    delta and is not the rounding of expenditure plus delta. *)
Theorem calculateDailyCalories_misses_expenditure p g (t : Qc) :
  GoalSettingsControls.offered g →
  calculateTDEE p = Num t →
  t ≤ Q2Qc 1999 ∨ Q2Qc 2001 ≤ t →
  calculateDailyCalories g = Math_round (add baseCalories (adjustment g))
  ∧ calculateDailyCalories g ≠ Math_round (add (calculateTDEE p) (adjustment g)).
Proof.
  intros Hg Ht Hfar. split; [reflexivity|].
  destruct (calculateDailyCalories_offered g Hg) as (d & Hd & ->).
  rewrite Ht, Hd. intros Heq. symmetry in Heq.
  apply Math_round_add_inv in Heq as [Hlo Hhi].
  revert Hlo Hhi. unfold Qcle, Qclt in *.
  rewrite !this_plus, !this_minus, !this_of_Z, !this_Q2Qc, inject_Z_plus.
  rewrite !this_Q2Qc in Hfar.
  change (inject_Z 2000) with 2000%Q. generalize (inject_Z d). intros f Hlo Hhi.
  destruct Hfar; lra.
Qed.

(** On the female profile (60, 165, 25, active) losing 0.5 kg a week the
    component returns 1450 where the expenditure 2320.55625 asks for 1771. *)
Lemma calculateDailyCalories_misses_expenditure_example :
  calculateTDEE Sample.female_60 = lit 2320.55625
  ∧ calculateDailyCalories (Sample.selection "perte" "0.5") = lit 1450
  ∧ Math_round (add (calculateTDEE Sample.female_60)
                    (adjustment (Sample.selection "perte" "0.5"))) = lit 1771
  ∧ calculateDailyCalories (Sample.selection "perte" "0.5")
    ≠ Math_round (add (calculateTDEE Sample.female_60)
                      (adjustment (Sample.selection "perte" "0.5"))).
Proof.
  split; [compute_done|]. split; [compute_done|]. split; [compute_done|].
  apply (calculateDailyCalories_misses_expenditure Sample.female_60
           (Sample.selection "perte" "0.5") (Q2Qc 2320.55625)).
  - split; eexists; (split; [|reflexivity]); repeat constructor.
  - compute_done.
  - right. compute_done.
Defined.

End GoalSettingsBase.

(** * Further properties of the screens *)

(** ** ProfileScreen: gender, age and activity level *)
Section ProfileScreenMore.
Import ProfileScreen.

(** Adding 5 gives no less than taking 161 off, and has no value exactly
    when taking 161 off has none. *)
Lemma add_5_above_sub_161 (t : number) :
  (add t (lit 5) = NaN ↔ sub t (lit 161) = NaN)
  ∧ (sub t (lit 161) ≠ NaN → le (sub t (lit 161)) (add t (lit 5)) = true).
Proof.
  destruct t as [|q|[]]; cbn; (split; [done|]); intros H; try done.
  apply negb_true_iff, bool_decide_eq_false. unfold Qclt.
  rewrite !this_plus, this_opp, !this_Q2Qc. lra.
Qed.

(** Whatever the other fields hold, the basal rate for ['homme'] is never
    below the one for any other gender, and has no value exactly when the
    other has none. *)
Theorem calculateBMR_gender_order p g :
  g ≠ VString "homme" →
  (calculateBMR (Sample.with_gender (VString "homme") p) = NaN
   ↔ calculateBMR (Sample.with_gender g p) = NaN)
  ∧ (calculateBMR (Sample.with_gender g p) ≠ NaN →
     le (calculateBMR (Sample.with_gender g p))
        (calculateBMR (Sample.with_gender (VString "homme") p)) = true).
Proof.
  intros Hg.
  rewrite calculateBMR_homme by reflexivity.
  rewrite (calculateBMR_other (Sample.with_gender g p)) by exact Hg.
  apply add_5_above_sub_161.
Qed.

Lemma calculateBMR_gender_order_example :
  calculateBMR (Sample.with_gender (VString "femme") Sample.female_60) = lit 1345.25
  ∧ calculateBMR (Sample.with_gender (VString "homme") Sample.female_60) = lit 1511.25
  ∧ le (calculateBMR (Sample.with_gender (VString "femme") Sample.female_60))
       (calculateBMR (Sample.with_gender (VString "homme") Sample.female_60)) = true.
Proof.
  split; [compute_done|]. split; [compute_done|].
  apply (calculateBMR_gender_order Sample.female_60 (VString "femme")).
  - discriminate.
  - compute_done.
Defined.

End ProfileScreenMore.

(** ** The age is read with [parseInt] *)
Section AgeMore.
Import ProfileScreen Inputs.

Lemma is_digit_not_white_space c : is_digit c = true → is_white_space c = false.
Proof. unfold is_digit, is_white_space. lia. Qed.

Lemma is_digit_not_x c : is_digit c = true → (code c =? 120) || (code c =? 88) = false.
Proof.
  unfold is_digit. intros [H1 H2]%andb_true_iff.
  apply orb_false_iff. split; lia.
Qed.

Lemma is_digit_digit_value c : is_digit c = true → digit_value 10 c = Some (code c - 48)%Z.
Proof. intros H. unfold digit_value. cbn. by rewrite H. Qed.

Lemma not_digit_digit_value c : is_digit c = false → digit_value 10 c = None.
Proof. intros H. unfold digit_value. cbn. by rewrite H. Qed.

(** The run of digits read at the head of [d ++ s] is [d] itself when [s]
    does not begin with a digit. *)
Lemma digits_app (d s : string) (acc : Z) (len : nat) :
  all_digits d = true →
  match s with String c _ => is_digit c = false | EmptyString => True end →
  digits 10 acc len (d +:+ s) = (let '(v, l, _) := digits 10 acc len d in (v, l, s)).
Proof.
  intros Hd Hs. revert acc len. induction d as [|c d IH]; intros acc len.
  - destruct s as [|c s]; [reflexivity|].
    simpl. by rewrite (not_digit_digit_value c Hs).
  - cbn [all_digits] in Hd. apply andb_true_iff in Hd as [Hc Hd].
    simpl. rewrite (is_digit_digit_value c Hc). by apply IH.
Qed.

Lemma sign_digit c s : is_digit c = true → sign (String c s) = (false, String c s).
Proof.
  destruct c; repeat match goal with b : bool |- _ => destruct b end;
    try discriminate; reflexivity.
Qed.

(** An age written with a decimal part is read as its integer part. *)
Lemma parseInt_fraction (d rest : string) :
  d ≠ ""%string → all_digits d = true →
  parseInt (VString (d +:+ "." +:+ rest)) = parseInt (VString d).
Proof.
  intros Hne Hd. destruct d as [|c d]; [done|]. clear Hne.
  cbn in Hd. apply andb_true_iff in Hd as [Hc Hd].
  unfold parseInt, ToString. simpl String.append. simpl trim_start.
  rewrite (is_digit_not_white_space c Hc), !(sign_digit c _ Hc).
  assert (∀ t : string,
    match t with
    | String c2 _ => (code c2 =? 120) || (code c2 =? 88) = false
    | EmptyString => True
    end →
    match String c t with
    | String "0" (String c2 r) =>
        if (code c2 =? 120) || (code c2 =? 88) then (16%Z, r) else (10%Z, String c t)
    | _ => (10%Z, String c t)
    end = (10%Z, String c t)) as Hradix.
  { intros t Ht.
    destruct c; repeat match goal with b : bool |- _ => destruct b end;
      try reflexivity.
    destruct t as [|c2 r]; [reflexivity|]. by rewrite Ht. }
  rewrite !Hradix.
  - change (String c (d +:+ "." +:+ rest)) with (String c d +:+ "." +:+ rest).
    rewrite (digits_app (String c d) ("." +:+ rest)); [|cbn; by rewrite Hc, Hd|reflexivity].
    by destruct (digits 10 0 0 (String c d)) as [[v l] r].
  - destruct d as [|c2 r]; [done|].
    cbn in Hd. apply andb_true_iff in Hd as [Hc2 _].
    by apply is_digit_not_x.
  - destruct d as [|c2 r]; [reflexivity|].
    cbn in Hd. apply andb_true_iff in Hd as [Hc2 _].
    simpl. by apply is_digit_not_x.
Qed.

(** [calculateBMR] reads the age with [parseInt]: for an age written as
    digits, a dot and anything after it, the basal rate is that of the
    integer part alone. *)
Theorem calculateBMR_age_fraction p (d rest : string) :
  d ≠ ""%string → all_digits d = true →
  calculateBMR (with_age (VString (d +:+ "." +:+ rest)) p)
  = calculateBMR (with_age (VString d) p).
Proof.
  intros Hne Hd. unfold calculateBMR. cbn [age weight height gender with_age].
  by rewrite (parseInt_fraction d rest Hne Hd).
Qed.

(** The age 30.9 gives the rate of the age 30, whereas the weight 70.9 is
    taken whole. *)
Lemma calculateBMR_age_fraction_example :
  calculateBMR (with_age (VString "30.9") Sample.male_70) = lit 1648.75
  ∧ calculateBMR (Sample.with_weight (VString "70.9") Sample.male_70) = lit 1657.75.
Proof.
  pose proof (calculateBMR_age_fraction Sample.male_70 "30" "9") as H.
  change ("30" +:+ "." +:+ "9") with "30.9" in H.
  rewrite H by done. split; compute_done.
Defined.

End AgeMore.

(** ** The activity multiplier *)
Section ActivityMore.
Import ProfileScreen Inputs.

(** The own properties of [levels] are the five multipliers. *)
Lemma levels_lookup_Some (k : string) (n : number) :
  levels !! k = Some n → ∃ a, k = activity_code a ∧ n = Num (multiplier a).
Proof.
  unfold levels. intros H.
  repeat (apply lookup_insert_Some in H as [[<- <-]|[_ H]];
          [first [by exists Sedentary | by exists Light | by exists Moderate
                 | by exists Active | by exists VeryActive]|]).
  by rewrite lookup_empty in H.
Qed.

Lemma multiplier_truthy a : ToBoolean (PNumber (Num (multiplier a))) = true.
Proof. destruct a; compute_done. Qed.

Lemma getActivityMultiplier_cases p :
  (∃ a, getActivityMultiplier p = PNumber (Num (multiplier a)))
  ∨ (∃ k, k ∈ Object_prototype ∧ getActivityMultiplier p = PBuiltin k).
Proof.
  unfold getActivityMultiplier, get, or.
  destruct (levels !! ToString (activityLevel p)) as [n|] eqn:Hlookup.
  - left. apply levels_lookup_Some in Hlookup as (a & _ & ->).
    exists a. by rewrite multiplier_truthy.
  - case_bool_decide as Hproto.
    + right. by exists (ToString (activityLevel p)).
    + left. by exists Sedentary.
Qed.

(** [getActivityMultiplier] never returns [undefined], zero or a number
    outside the table: whatever the activity level holds, the result is one
    of the five multipliers (1.2 for a key that is not found) or a member of
    [Object.prototype] the key names. *)
Theorem getActivityMultiplier_range p :
  (∃ a, getActivityMultiplier p = PNumber (Num (multiplier a)))
  ∨ (∃ k, k ∈ Object_prototype ∧ getActivityMultiplier p = PBuiltin k).
Proof. apply getActivityMultiplier_cases. Qed.

(** So the daily expenditure is either [NaN] through an inherited member or
    the basal rate times a factor between 1.2 and 1.9. *)
Corollary calculateTDEE_range p :
  (∃ m : Qc, Q2Qc 1.2 ≤ m ∧ m ≤ Q2Qc 1.9
     ∧ calculateTDEE p = mul (calculateBMR p) (Num m))
  ∨ calculateTDEE p = NaN.
Proof.
  unfold calculateTDEE.
  destruct (getActivityMultiplier_cases p) as [[a ->]|(k & _ & ->)].
  - left. exists (multiplier a). by destruct a; repeat split; try compute_done.
  - right. cbn. by destruct (calculateBMR p).
Qed.

Lemma multiplier_mono a1 a2 :
  (activity_rank a1 ≤ activity_rank a2)%nat → multiplier a1 ≤ multiplier a2.
Proof. destruct a1, a2; cbn; intros H; try lia; compute_done. Qed.

Lemma calculateBMR_with_activityLevel a p :
  calculateBMR (Sample.with_activityLevel a p) = calculateBMR p.
Proof. reflexivity. Qed.

(** For a basal rate that is not negative, a more active level of the table
    never lowers the daily expenditure; for a negative one the order is
    reversed. *)
Theorem calculateTDEE_monotone p (b : Qc) a1 a2 :
  calculateBMR p = Num b →
  (activity_rank a1 ≤ activity_rank a2)%nat →
  ∃ t1 t2 : Qc,
    calculateTDEE (Sample.with_activityLevel (VString (activity_code a1)) p) = Num t1
    ∧ calculateTDEE (Sample.with_activityLevel (VString (activity_code a2)) p) = Num t2
    ∧ (0 ≤ b → t1 ≤ t2) ∧ (b ≤ 0 → t2 ≤ t1).
Proof.
  intros Hb Hrank. exists (b * multiplier a1), (b * multiplier a2).
  unfold calculateTDEE.
  rewrite !calculateBMR_with_activityLevel, Hb.
  rewrite (getActivityMultiplier_recognised _ a1) by reflexivity.
  rewrite (getActivityMultiplier_recognised _ a2) by reflexivity.
  pose proof (multiplier_mono a1 a2 Hrank) as Hm.
  repeat split.
  - intros Hpos. rewrite !(Qcmult_comm b). by apply Qcmult_le_compat_r.
  - intros Hneg. revert Hm Hneg.
    generalize (multiplier a1), (multiplier a2). intros m1 m2 Hm Hneg.
    qc_to_q. nra.
Qed.

Lemma calculateTDEE_monotone_example :
  calculateTDEE (Sample.with_activityLevel (VString "sedentaire") Sample.male_70)
    = lit 1978.5
  ∧ calculateTDEE (Sample.with_activityLevel (VString "tresActif") Sample.male_70)
    = lit 3132.625.
Proof.
  destruct (calculateTDEE_monotone Sample.male_70 (Q2Qc 1648.75) Sedentary VeryActive)
    as (t1 & t2 & H1 & H2 & _); [compute_done | cbn; lia |].
  split; compute_done.
Defined.

End ActivityMore.

(** ** GoalSettings: unreadable rates, order, and the states of the controls *)
Section GoalSettingsMore.
Import GoalSettings GoalSettingsControls.

Lemma Math_round_NaN x : Math_round x = NaN ↔ x = NaN.
Proof. destruct x; cbn; split; intros; done. Qed.

Lemma add_baseCalories_NaN x : add baseCalories x = NaN ↔ x = NaN.
Proof. destruct x; cbn; split; intros; done. Qed.

Lemma scaled_NaN x :
  (div (mul (lit 7700) x) (lit 7) = NaN ↔ x = NaN)
  ∧ (div (neg (mul (lit 7700) x)) (lit 7) = NaN ↔ x = NaN).
Proof. destruct x as [|q|[]]; cbn; repeat split; intros; done. Qed.

(** The component shows [NaN] exactly when the goal is a loss or a gain and
    the weekly change has no numeric prefix; with any other goal type the
    weekly change is not read and the result is the base, 2000. *)
Theorem calculateDailyCalories_NaN g :
  (calculateDailyCalories g = NaN ↔
     adjusts g = true ∧ parseFloat (weeklyChange g) = NaN)
  ∧ (adjusts g = false → calculateDailyCalories g = lit 2000).
Proof.
  unfold calculateDailyCalories, adjusts.
  rewrite Math_round_NaN, add_baseCalories_NaN. unfold adjustment.
  destruct (scaled_NaN (parseFloat (weeklyChange g))) as [Hgain Hloss].
  destruct (strict_equals_string (type g) "perte"); cbn [orb].
  - rewrite Hloss. split; [tauto | discriminate].
  - destruct (strict_equals_string (type g) "prise").
    + rewrite Hgain. split; [tauto | discriminate].
    + split; [|intros _; compute_done].
      split; [discriminate | intros [? _]; discriminate].
Qed.

Lemma calculateDailyCalories_NaN_example :
  calculateDailyCalories (Sample.selection "perte" "") = NaN
  ∧ calculateDailyCalories (Sample.selection "prise" "un") = NaN
  ∧ calculateDailyCalories (Sample.selection "maintien" "") = lit 2000.
Proof.
  split; [|split].
  - by apply (proj1 (calculateDailyCalories_NaN (Sample.selection "perte" ""))).
  - by apply (proj1 (calculateDailyCalories_NaN (Sample.selection "prise" "un"))).
  - by apply (proj2 (calculateDailyCalories_NaN (Sample.selection "maintien" ""))).
Defined.

Lemma this_inv_7 : (this (/ Q2Qc 7) == 1 # 7)%Q.
Proof. reflexivity. Qed.

Lemma calculateDailyCalories_perte (s : string) (r : Qc) :
  parseFloat (VString s) = Num r →
  calculateDailyCalories (Sample.selection "perte" s)
  = Num (Qc_of_Z (Qfloor (Q2Qc 2000 + - (Q2Qc 7700 * r / Q2Qc 7) + Q2Qc (1 # 2))%Qc)).
Proof.
  intros H. unfold calculateDailyCalories.
  rewrite (adjustment_of_rate (Sample.selection "perte" s) r H). reflexivity.
Qed.

Lemma calculateDailyCalories_prise (s : string) (r : Qc) :
  parseFloat (VString s) = Num r →
  calculateDailyCalories (Sample.selection "prise" s)
  = Num (Qc_of_Z (Qfloor (Q2Qc 2000 + Q2Qc 7700 * r / Q2Qc 7 + Q2Qc (1 # 2))%Qc)).
Proof.
  intros H. unfold calculateDailyCalories.
  rewrite (adjustment_of_rate (Sample.selection "prise" s) r H). reflexivity.
Qed.

(** A faster loss never raises the daily calories and a faster gain never
    lowers them; at a rate that is not negative the loss stays at or below
    the base, 2000, and the gain at or above it. *)
Theorem calculateDailyCalories_monotone (s1 s2 : string) (r1 r2 : Qc) :
  parseFloat (VString s1) = Num r1 → parseFloat (VString s2) = Num r2 →
  0 ≤ r1 → r1 ≤ r2 →
  ∃ l2 l1 g1 g2 : Z,
    calculateDailyCalories (Sample.selection "perte" s2) = Num (Qc_of_Z l2)
    ∧ calculateDailyCalories (Sample.selection "perte" s1) = Num (Qc_of_Z l1)
    ∧ calculateDailyCalories (Sample.selection "prise" s1) = Num (Qc_of_Z g1)
    ∧ calculateDailyCalories (Sample.selection "prise" s2) = Num (Qc_of_Z g2)
    ∧ (l2 ≤ l1 ≤ 2000 ∧ 2000 ≤ g1 ≤ g2)%Z.
Proof.
  intros H1 H2 Hpos Hle.
  rewrite (calculateDailyCalories_perte s2 r2 H2), (calculateDailyCalories_perte s1 r1 H1).
  rewrite (calculateDailyCalories_prise s1 r1 H1), (calculateDailyCalories_prise s2 r2 H2).
  eexists _, _, _, _. repeat split.
  - apply Qfloor_resp_le. unfold Qcdiv. qc_to_q. rewrite this_inv_7. lra.
  - apply Z.le_trans with (Qfloor (Q2Qc 2000 + Q2Qc (1 # 2))%Qc); [|compute_done].
    apply Qfloor_resp_le. unfold Qcdiv. qc_to_q. rewrite this_inv_7. lra.
  - apply Z.le_trans with (Qfloor (Q2Qc 2000 + Q2Qc (1 # 2))%Qc); [compute_done|].
    apply Qfloor_resp_le. unfold Qcdiv. qc_to_q. rewrite this_inv_7. lra.
  - apply Qfloor_resp_le. unfold Qcdiv. qc_to_q. rewrite this_inv_7. lra.
Qed.

(** At the rates 0.5 and 1 kg a week: 900 <= 1450 <= 2000 <= 2550 <= 3100. *)
Lemma calculateDailyCalories_monotone_example :
  calculateDailyCalories (Sample.selection "perte" "1") = lit 900
  ∧ calculateDailyCalories (Sample.selection "perte" "0.5") = lit 1450
  ∧ calculateDailyCalories (Sample.selection "prise" "0.5") = lit 2550
  ∧ calculateDailyCalories (Sample.selection "prise" "1") = lit 3100.
Proof.
  destruct (calculateDailyCalories_monotone "0.5" "1" (Q2Qc 0.5) (Q2Qc 1))
    as (l2 & l1 & g1 & g2 & _); [compute_done .. |].
  repeat split; compute_done.
Defined.

End GoalSettingsMore.

(** ** The states the controls of GoalSettings reach *)
Section GoalSettingsReach.
Import GoalSettings GoalSettingsControls.

Lemma handle_offered g e : offered g → raised e → offered (handle g e).
Proof.
  intros [Ht Hw] He. destruct e as [t|w|text]; cbn in *; split; eauto.
Qed.

Lemma foldl_handle_offered events g :
  offered g → Forall raised events → offered (foldl handle g events).
Proof.
  revert g. induction events as [|e events IH]; intros g Hg Hall; [done|].
  apply Forall_cons in Hall as [He Hall]. cbn.
  apply IH; [by apply handle_offered | done].
Qed.

(** Whatever buttons are pressed and whatever target weight is typed, from
    the state the component starts in, the calories shown are one of 900,
    1450, 1725, 2000, 2275, 2550 and 3100: never [NaN], never below 900. *)
Theorem calculateDailyCalories_of_controls events :
  Forall raised events →
  calculateDailyCalories (after events)
  ∈ [lit 900; lit 1450; lit 1725; lit 2000; lit 2275; lit 2550; lit 3100].
Proof.
  intros Hall.
  assert (offered (after events)) as [(t & Ht & Htype) (w & Hw & Hweekly)].
  { apply foldl_handle_offered; [|done].
    split; [exists "maintien"%string | exists "0.5"%string];
      split; [set_solver | done | set_solver | done]. }
  unfold calculateDailyCalories, adjustment. rewrite Htype, Hweekly.
  unfold type_buttons, weeklyChange_buttons in *.
  repeat (apply elem_of_cons in Ht as [->|Ht]);
    [..|by apply elem_of_nil in Ht];
    (repeat (apply elem_of_cons in Hw as [->|Hw]);
      [..|by apply elem_of_nil in Hw]).
  all: match goal with
       | |- ?x ∈ _ =>
         let v := eval vm_compute in x in
         change x with v
       end.
  all: rewrite !elem_of_cons; repeat first [left; compute_done | right].
Qed.

(** Pressing Perte and then 1 kg gives 900 kcal. *)
Lemma calculateDailyCalories_of_controls_example :
  calculateDailyCalories
    (after [PressType "perte"; TypeTargetWeight "6O"; PressWeeklyChange "1"])
  ∈ [lit 900; lit 1450; lit 1725; lit 2000; lit 2275; lit 2550; lit 3100].
Proof.
  apply calculateDailyCalories_of_controls.
  repeat constructor; cbn; set_solver.
Defined.

End GoalSettingsReach.

(** ** NotificationCenter *)
Section NotificationCenterMore.
Import JSMore NotificationCenter.

Lemma loadNotifications_count answer st :
  unreadCount st = length (List.filter unread (notifications st)) →
  unreadCount (loadNotifications answer st)
  = length (List.filter unread (notifications (loadNotifications answer st))).
Proof. by destruct answer. Qed.

Lemma after_count answers st :
  unreadCount st = length (List.filter unread (notifications st)) →
  let st' := foldl (λ st answer, loadNotifications answer st) st answers in
  unreadCount st' = length (List.filter unread (notifications st')).
Proof.
  revert st. induction answers as [|answer answers IH]; intros st Hst; [done|].
  cbn. apply IH. by apply loadNotifications_count.
Qed.

(** After any succession of reloads, failed ones included, the counter is
    the number of notifications shown whose [read] is falsy; it never
    exceeds the number of notifications, and the badge is shown exactly when
    one of them is unread. *)
Theorem unreadCount_consistent answers :
  unreadCount (after answers)
  = length (List.filter unread (notifications (after answers)))
  ∧ (unreadCount (after answers) ≤ length (notifications (after answers)))%nat
  ∧ (badge (after answers) = true ↔
       ∃ n, n ∈ notifications (after answers) ∧ unread n = true).
Proof.
  assert (unreadCount (after answers)
          = length (List.filter unread (notifications (after answers)))) as Hcount.
  { by apply (after_count answers initial). }
  split; [exact Hcount|]. unfold badge. rewrite Hcount. split.
  - apply List.filter_length_le.
  - rewrite bool_decide_eq_true.
    generalize (notifications (after answers)). intros l. split.
    + induction l as [|n l IH]; cbn; [lia|].
      destruct (unread n) eqn:Hn.
      * intros _. exists n. split; [set_solver | done].
      * intros [m [Hm Hu]]%IH. exists m. split; [set_solver | done].
    + intros (n & Hn & Hu). induction l as [|m l IH]; [by apply elem_of_nil in Hn|].
      cbn. apply elem_of_cons in Hn as [<-|Hn].
      * rewrite Hu. cbn. lia.
      * destruct (unread m); cbn; [lia | by apply IH].
Qed.

(** A failed reload keeps the list and the counter; a notification without
    a [read] field counts as unread. *)
Lemma unreadCount_consistent_example :
  unreadCount
    (after [Some [Inputs.notification VUndefined; Inputs.notification (VBoolean true);
                  Inputs.notification (VBoolean false)]; None]) = 2%nat
  ∧ badge
      (after [Some [Inputs.notification VUndefined; Inputs.notification (VBoolean true);
                    Inputs.notification (VBoolean false)]; None]) = true.
Proof.
  destruct (unreadCount_consistent
    [Some [Inputs.notification VUndefined; Inputs.notification (VBoolean true);
           Inputs.notification (VBoolean false)]; None]) as (Hcount & _ & Hbadge).
  split; [by rewrite Hcount|].
  apply Hbadge. exists (Inputs.notification VUndefined). split; [|done].
  constructor.
Defined.

End NotificationCenterMore.

(** ** NutritionCard and the daily card of HomeScreen *)
Section NutritionCardMore.
Import JSMore NutritionCard.

(** What remains is never negative: for finite figures it is the target
    minus what was consumed, or zero once the target is reached. *)
Theorem calculateRemaining_bounds (current max : Qc) :
  ∃ r : Qc, calculateRemaining (Num current) (Num max) = Num r
    ∧ 0 ≤ r ∧ max - current ≤ r ∧ (r = 0 ↔ max ≤ current)
    ∧ (current ≤ max → r = max - current).
Proof.
  unfold calculateRemaining, Math_max, sub, neg, add, lit, lt.
  case_bool_decide as H.
  - exists 0. repeat split; try done.
    + qc_to_q. lra.
    + intros _. qc_to_q. lra.
    + intros Hle. apply Qc_is_canon. qc_to_q. apply Qle_antisym; lra.
  - exists (max + - current). apply Qcnot_lt_le in H.
    split; [reflexivity|]. split; [exact H|]. split; [apply Qcle_refl|]. split.
    + split.
      * intros Hr%this_eq. qc_to_q. lra.
      * intros Hle. apply Qc_is_canon. qc_to_q. apply Qle_antisym; lra.
    + reflexivity.
Qed.

Lemma calculateRemaining_bounds_example :
  calculateRemaining (lit 1500) (lit 2000) = lit 500
  ∧ calculateRemaining (lit 2600) (lit 2000) = lit 0.
Proof.
  destruct (calculateRemaining_bounds (Q2Qc 1500) (Q2Qc 2000)) as (r & Hr & _ & _ & _ & Heq).
  split; [|compute_done].
  change (lit 1500) with (Num (Q2Qc 1500)). change (lit 2000) with (Num (Q2Qc 2000)).
  rewrite Hr, Heq by compute_done. compute_done.
Defined.

(** For a positive target the bar value is at most 1, is not negative when
    nothing negative was consumed, and is 1 exactly when the target is
    reached, which is exactly when nothing remains. *)
Theorem calculateProgress_bounds (current max : Qc) :
  0 < max →
  ∃ p : Qc, calculateProgress (Num current) (Num max) = Num p
    ∧ p ≤ 1 ∧ (0 ≤ current → 0 ≤ p) ∧ (p = 1 ↔ max ≤ current)
    ∧ (p = 1 ↔ calculateRemaining (Num current) (Num max) = lit 0).
Proof.
  intros Hmax.
  assert (max ≠ 0) as Hne by (intros ->; by apply Qclt_not_eq in Hmax).
  assert (current / max * max = current) as Hdiv by (by field).
  unfold calculateProgress, calculateRemaining, Math_min, Math_max, div, sub, neg,
    add, lit, lt, is_zero.
  rewrite (bool_decide_eq_false_2 _ Hne).
  apply this_eq in Hdiv. revert Hdiv. generalize (current / max). intros q Hdiv.
  repeat case_bool_decide; eexists; (split; [reflexivity|]); repeat split;
    try (intros; qc_to_q; nra);
    try (intros; apply Qc_is_canon; qc_to_q; apply Qle_antisym; nra);
    try (intros; f_equal; apply Qc_is_canon; qc_to_q; apply Qle_antisym; nra);
    try (intros Hq%this_eq; qc_to_q; nra);
    try (intros Hq%this_eq; f_equal; apply Qc_is_canon; qc_to_q;
         apply Qle_antisym; nra);
    try (match goal with
         | |- Num ?a = Num ?b → _ =>
             intros Hq; assert (a = b) as Hq'%this_eq by congruence
         end; try apply Qc_is_canon; qc_to_q; try apply Qle_antisym; nra).
Qed.

Lemma calculateProgress_example :
  calculateProgress (lit 1500) (lit 2000) = lit 0.75
  ∧ calculateRemaining (lit 1500) (lit 2000) = lit 500
  ∧ calculateProgress (lit 2500) (lit 2000) = lit 1
  ∧ calculateRemaining (lit 2500) (lit 2000) = lit 0.
Proof.
  destruct (calculateProgress_bounds (Q2Qc 1500) (Q2Qc 2000)) as (p & Hp & _);
    [compute_done|].
  repeat split; compute_done.
Defined.

(** With a target of zero the bar is full as soon as something was consumed
    and has no value, [NaN], when nothing was. *)
Theorem calculateProgress_zero_target (current : Qc) :
  0 < current →
  calculateProgress (Num current) (lit 0) = lit 1
  ∧ calculateProgress (lit 0) (lit 0) = NaN.
Proof.
  intros Hpos. split; [|reflexivity].
  unfold calculateProgress, Math_min, div, lit, is_zero, is_negative.
  rewrite bool_decide_eq_true_2 by (apply Qc_is_canon; reflexivity).
  rewrite bool_decide_eq_false_2 by (intros ->; by apply Qclt_not_eq in Hpos).
  rewrite bool_decide_eq_false_2 by (by apply Qcle_not_lt, Qclt_le_weak).
  reflexivity.
Qed.

Lemma calculateProgress_zero_target_example :
  calculateProgress (lit 350) (lit 0) = lit 1.
Proof. apply (calculateProgress_zero_target (Q2Qc 350)). compute_done. Defined.

(** The daily card of the home screen passes consumed / target to its bar as
    it is: for a positive target it is the capped value of [calculateProgress]
    exactly when the target is not exceeded, and above 1 otherwise. *)
Theorem HomeScreen_progress_uncapped dailyStats (consumed target : Qc) :
  HomeScreen.consumed dailyStats = Num consumed →
  HomeScreen.target dailyStats = Num target →
  0 < target →
  ∃ p : Qc,
    HomeScreen.progress dailyStats = Num p
    ∧ (consumed ≤ target → calculateProgress (Num consumed) (Num target) = Num p)
    ∧ (target < consumed →
       1 < p ∧ calculateProgress (Num consumed) (Num target) = lit 1).
Proof.
  intros Hconsumed Hstats Htarget.
  assert (target ≠ 0) as Hne by (intros ->; by apply Qclt_not_eq in Htarget).
  assert (consumed / target * target = consumed) as Hdiv by (by field).
  unfold HomeScreen.progress, calculateProgress, Math_min, div, lit, lt, is_zero.
  rewrite Hconsumed, Hstats.
  rewrite (bool_decide_eq_false_2 _ Hne).
  apply this_eq in Hdiv. revert Hdiv. generalize (consumed / target). intros q Hdiv.
  exists q. split; [reflexivity|]. split.
  - intros Hle. rewrite bool_decide_eq_false_2; [reflexivity|].
    intros Hq. qc_to_q. nra.
  - intros Hlt. assert (1 < q) as Hq by (qc_to_q; nra).
    split; [exact Hq|]. by rewrite bool_decide_eq_true_2.
Qed.

Lemma HomeScreen_progress_uncapped_example :
  HomeScreen.progress
    {| HomeScreen.consumed := lit 2500; HomeScreen.target := lit 2000;
       HomeScreen.remaining := lit 0 |} = lit 1.25
  ∧ calculateProgress (lit 2500) (lit 2000) = lit 1.
Proof.
  destruct (HomeScreen_progress_uncapped
              {| HomeScreen.consumed := lit 2500; HomeScreen.target := lit 2000;
                 HomeScreen.remaining := lit 0 |}
              (Q2Qc 2500) (Q2Qc 2000)) as (p & _); [done | done | compute_done |].
  split; compute_done.
Defined.

End NutritionCardMore.

(** ** NutritionAnalysisScreen: labels and percentages *)
Section NutritionAnalysisChartsMore.
Import NutritionAnalysisCharts.

(** The chart gets one label for each day of the selected period, J1 to Jn,
    all different, whatever the number of values the server sent. *)
Theorem labels_days (selectedPeriod : nat) :
  length (labels selectedPeriod) = selectedPeriod
  ∧ NoDup (labels selectedPeriod)
  ∧ ∀ i, (i < selectedPeriod)%nat →
      labels selectedPeriod !! i = Some ("J" +:+ pretty (i + 1)%nat).
Proof.
  unfold labels. split; [|split].
  - by rewrite length_fmap, length_seq.
  - apply NoDup_fmap_2; [|apply NoDup_seq].
    intros i j [= Hij]. simpl in Hij. apply pretty_nat_inj in Hij. lia.
  - intros i Hi. rewrite list_lookup_fmap, lookup_seq_lt by done. reflexivity.
Qed.

Lemma labels_days_example :
  labels 7 = ["J1"; "J2"; "J3"; "J4"; "J5"; "J6"; "J7"]%string.
Proof.
  destruct (labels_days 7) as (_ & _ & Hi).
  apply list_eq. intros i.
  destruct (decide (i < 7)%nat) as [Hlt|Hge].
  - rewrite (Hi i Hlt). do 7 (destruct i as [|i]; [reflexivity|]). lia.
  - rewrite !lookup_ge_None_2; [done | cbn; lia | cbn; lia].
Defined.

Lemma Math_round_bounds (x : Qc) :
  ∃ z : Z, Math_round (Num x) = Num (Qc_of_Z z)
    ∧ x - Q2Qc (1 # 2) < Qc_of_Z z ∧ Qc_of_Z z ≤ x + Q2Qc (1 # 2).
Proof.
  exists (GoalCalculator.floorQc (x + Q2Qc (1 # 2))). split; [reflexivity|].
  destruct (floorQc_bounds (x + Q2Qc (1 # 2))) as [Hlo Hhi].
  revert Hlo Hhi. generalize (Qc_of_Z (GoalCalculator.floorQc (x + Q2Qc (1 # 2)))).
  intros f Hlo Hhi. split; qc_to_q; lra.
Qed.

(** When the three percentages add up to 100, the rounded percentages
    printed under the pie chart add up to 99, 100 or 101. *)
Theorem renderMacronutrients_sum m (p c f : Qc) :
  proteins m = Num p → carbs m = Num c → fats m = Num f →
  p + c + f = Q2Qc 100 →
  ∃ x y z : Z,
    renderMacronutrients (Some m)
    = Some [("Protéines"%string, Num (Qc_of_Z x));
            ("Glucides"%string, Num (Qc_of_Z y));
            ("Lipides"%string, Num (Qc_of_Z z))]
    ∧ (99 ≤ x + y + z ≤ 101)%Z.
Proof.
  intros Hp Hc Hf Hsum. unfold renderMacronutrients. rewrite Hp, Hc, Hf.
  destruct (Math_round_bounds p) as (x & -> & Hx1 & Hx2).
  destruct (Math_round_bounds c) as (y & -> & Hy1 & Hy2).
  destruct (Math_round_bounds f) as (z & -> & Hz1 & Hz2).
  exists x, y, z. split; [reflexivity|].
  apply this_eq in Hsum. rewrite !this_plus, this_Q2Qc in Hsum. qc_to_q.
  assert (inject_Z 98 < inject_Z (x + y + z))%Q as Hlo
    by (rewrite !inject_Z_plus; change (inject_Z 98) with 98%Q; lra).
  assert (inject_Z (x + y + z) < inject_Z 102)%Q as Hhi
    by (rewrite !inject_Z_plus; change (inject_Z 102) with 102%Q; lra).
  rewrite <- Zlt_Qlt in Hlo, Hhi. lia.
Qed.

(** The three sums occur: 33.4 + 33.3 + 33.3 prints 99 and
    33.5 + 33.5 + 33 prints 101. *)
Lemma renderMacronutrients_sum_example :
  renderMacronutrients
    (Some {| proteins := lit 33.4; carbs := lit 33.3; fats := lit 33.3 |})
  = Some [("Protéines"%string, lit 33); ("Glucides"%string, lit 33);
          ("Lipides"%string, lit 33)]
  ∧ renderMacronutrients
      (Some {| proteins := lit 33.5; carbs := lit 33.5; fats := lit 33 |})
    = Some [("Protéines"%string, lit 34); ("Glucides"%string, lit 34);
            ("Lipides"%string, lit 33)].
Proof.
  destruct (renderMacronutrients_sum
              {| proteins := lit 33.4; carbs := lit 33.3; fats := lit 33.3 |}
              (Q2Qc 33.4) (Q2Qc 33.3) (Q2Qc 33.3)) as (x & y & z & _);
    [done | done | done | compute_done |].
  split; cbn; repeat f_equal; compute_done.
Defined.

End NutritionAnalysisChartsMore.

(** ** EatingHabitsScreen: the bars *)
Section EatingHabitsBarsMore.
Import EatingHabitsScreen EatingHabitsBars.

Lemma to_grid_4_mono (x y : Qc) : x ≤ y → to_grid 4 x ≤ to_grid 4 y.
Proof.
  intros Hxy. unfold to_grid.
  assert (Qfloor (x * Qc_of_Z 4)%Qc ≤ Qfloor (y * Qc_of_Z 4)%Qc)%Z as Hf.
  { apply Qfloor_resp_le. revert Hxy. unfold Qcle.
    rewrite !this_mult, !this_of_Z. change (inject_Z 4) with 4%Q. lra. }
  rewrite Zle_Qle in Hf. revert Hf.
  unfold Qcle, Qcdiv. rewrite !this_mult, !this_of_Z.
  generalize (inject_Z (Qfloor (x * Qc_of_Z 4)%Qc)).
  generalize (inject_Z (Qfloor (y * Qc_of_Z 4)%Qc)). intros a b Hab.
  assert (this (/ Qc_of_Z 4) == 1 # 4)%Q as -> by reflexivity. lra.
Qed.

Section Rounding.
Variable round : Qc → Qc.
Hypothesis round_monotone : ∀ x y : Qc, x ≤ y → round x ≤ round y.
Hypothesis round_quarter : round (Q2Qc 0.25) = Q2Qc 0.25.
Hypothesis round_half : round (Q2Qc 0.5) = Q2Qc 0.5.
Hypothesis round_three_quarters : round (Q2Qc 0.75) = Q2Qc 0.75.

Lemma consistency_progress_above (c q : Qc) :
  c ≤ Q2Qc 4 * q → round q = q → round (Q2Qc 1 - q) = Q2Qc 1 - q →
  Q2Qc 1 - q ≤ round (Q2Qc 1 - round (c / Q2Qc 4)).
Proof.
  intros Hc Hq Hq'. rewrite <- Hq'. apply round_monotone.
  assert (round (c / Q2Qc 4) ≤ q) as Hr.
  { rewrite <- Hq. apply round_monotone.
    assert (c / Q2Qc 4 * Q2Qc 4 = c) as Hdiv%this_eq by (by field).
    revert Hdiv Hc. generalize (c / Q2Qc 4). intros d Hdiv Hc. qc_to_q. lra. }
  revert Hr. generalize (round (c / Q2Qc 4)). intros r Hr. qc_to_q. lra.
Qed.

Lemma consistency_progress_below (c q : Qc) :
  Q2Qc 4 * q ≤ c → round q = q → round (Q2Qc 1 - q) = Q2Qc 1 - q →
  round (Q2Qc 1 - round (c / Q2Qc 4)) ≤ Q2Qc 1 - q.
Proof.
  intros Hc Hq Hq'. rewrite <- Hq'. apply round_monotone.
  assert (q ≤ round (c / Q2Qc 4)) as Hr.
  { rewrite <- Hq. apply round_monotone.
    assert (c / Q2Qc 4 * Q2Qc 4 = c) as Hdiv%this_eq by (by field).
    revert Hdiv Hc. generalize (c / Q2Qc 4). intros d Hdiv Hc. qc_to_q. lra. }
  revert Hr. generalize (round (c / Q2Qc 4)). intros r Hr. qc_to_q. lra.
Qed.

(** The regularity printed and the bar drawn under it agree, whatever the
    rounding of the quotient and of the difference, as long as it keeps the
    order and the three quarters: Excellente has a bar of 3/4 at least, Bonne
    a bar from 1/2 to 3/4, À améliorer a bar of 1/2 at most; a bar without
    value goes with À améliorer, an overfull one with Excellente. *)
Theorem regularity_of_progress data :
  match consistency_progress round data with
  | Num p =>
      match regularity_of data with
      | Excellente => Q2Qc 0.75 ≤ p
      | Bonne => Q2Qc 0.5 ≤ p ∧ p ≤ Q2Qc 0.75
      | A_ameliorer => p ≤ Q2Qc 0.5
      end
  | NaN => regularity_of data = A_ameliorer
  | Inf negative => regularity_of data = if negative then A_ameliorer else Excellente
  end.
Proof.
  unfold consistency_progress, regularity_of.
  destruct (consistency data) as [|c|[]]; try reflexivity.
  change (div (Num c) (lit 4)) with (Num (c / Q2Qc 4)).
  change (rounded round (sub (lit 1) (rounded round (Num (c / Q2Qc 4)))))
    with (Num (round (Q2Qc 1 + - round (c / Q2Qc 4)))).
  change (Q2Qc 1 + - round (c / Q2Qc 4)) with (Q2Qc 1 - round (c / Q2Qc 4)).
  change (lt (Num c) (lit 1)) with (bool_decide (c < Q2Qc 1)).
  change (lt (Num c) (lit 2)) with (bool_decide (c < Q2Qc 2)).
  assert (Q2Qc 1 - Q2Qc 0.25 = Q2Qc 0.75) as E1 by (by apply Qc_is_canon).
  assert (Q2Qc 1 - Q2Qc 0.5 = Q2Qc 0.5) as E2 by (by apply Qc_is_canon).
  assert (round (Q2Qc 1 - Q2Qc 0.25) = Q2Qc 1 - Q2Qc 0.25) as R1 by (by rewrite E1).
  assert (round (Q2Qc 1 - Q2Qc 0.5) = Q2Qc 1 - Q2Qc 0.5) as R2 by (by rewrite E2).
  repeat case_bool_decide.
  - rewrite <- E1. apply consistency_progress_above; [|done..].
    qc_to_q. lra.
  - split.
    + rewrite <- E2. apply consistency_progress_above; [|done..]. qc_to_q. lra.
    + rewrite <- E1. apply consistency_progress_below; [|done..]. qc_to_q. lra.
  - rewrite <- E2. apply consistency_progress_below; [|done..]. qc_to_q. lra.
Qed.

(** For a consistency from 0 to 4 the bar stays within its range, when the
    rounding keeps 0 and 1 as well. *)
Lemma consistency_progress_range data (c : Qc) :
  round 0 = 0 → round (Q2Qc 1) = Q2Qc 1 →
  consistency data = Num c →
  0 ≤ c → c ≤ Q2Qc 4 →
  ∃ p : Qc, consistency_progress round data = Num p ∧ 0 ≤ p ∧ p ≤ Q2Qc 1.
Proof.
  intros R0 R1 Hc Hlo Hhi. unfold consistency_progress. rewrite Hc.
  eexists. split; [reflexivity|].
  assert (Q2Qc 1 - Q2Qc 1 = 0) as E1 by (by apply Qc_is_canon).
  assert (Q2Qc 1 - 0 = Q2Qc 1) as E0 by (by apply Qc_is_canon).
  change (Q2Qc 1 + - round (c / Q2Qc 4)) with (Q2Qc 1 - round (c / Q2Qc 4)).
  split.
  - rewrite <- E1. apply consistency_progress_above; [|done|by rewrite E1].
    qc_to_q. lra.
  - rewrite <- E0. apply consistency_progress_below; [|done|by rewrite E0].
    qc_to_q. lra.
Qed.

End Rounding.

(** With a rounding down to quarters, a consistency of 1.9 is printed Bonne
    over a bar of exactly 3/4 and one of 0.9 Excellente over a full bar;
    without any rounding the bars are 0.525 and 0.775. *)
Lemma regularity_of_progress_example :
  regularity_of (Sample.meal_time_of 1.9) = Bonne
  ∧ consistency_progress (to_grid 4) (Sample.meal_time_of 1.9) = lit 0.75
  ∧ regularity_of (Sample.meal_time_of 0.9) = Excellente
  ∧ consistency_progress (to_grid 4) (Sample.meal_time_of 0.9) = lit 1
  ∧ consistency_progress id (Sample.meal_time_of 1.9) = lit 0.525
  ∧ consistency_progress id (Sample.meal_time_of 0.9) = lit 0.775
  ∧ Q2Qc 0.5 ≤ Q2Qc 0.75 ∧ Q2Qc 0.75 ≤ Q2Qc 0.75.
Proof.
  assert (to_grid 4 (Q2Qc 0.25) = Q2Qc 0.25) as G1 by compute_done.
  assert (to_grid 4 (Q2Qc 0.5) = Q2Qc 0.5) as G2 by compute_done.
  assert (to_grid 4 (Q2Qc 0.75) = Q2Qc 0.75) as G3 by compute_done.
  pose proof (regularity_of_progress (to_grid 4) to_grid_4_mono G1 G2 G3
                (Sample.meal_time_of 1.9)) as H.
  assert (consistency_progress (to_grid 4) (Sample.meal_time_of 1.9) = lit 0.75)
    as E by compute_done.
  assert (regularity_of (Sample.meal_time_of 1.9) = Bonne) as L by compute_done.
  rewrite E, L in H. destruct H as [H1 H2].
  split; [exact L|]. split; [exact E|].
  split; [compute_done|]. split; [compute_done|].
  split; [compute_done|]. split; [compute_done|].
  split; [exact H1 | exact H2].
Defined.

Lemma frequency_percent_check (selectedPeriod : Z) :
  selectedPeriod ∈ periods →
  forallb (λ frequency,
    match frequency_percent (Num (Qc_of_Z frequency)) (Num (Qc_of_Z selectedPeriod)) with
    | Num q =>
        existsb (λ z, bool_decide (q = Qc_of_Z z)
                      && Bool.eqb (z =? 0)%Z (frequency =? 0)%Z
                      && Bool.eqb (z =? 100)%Z (frequency =? selectedPeriod)%Z)
                (seqZ 0 101)
    | _ => false
    end) (seqZ 0 (selectedPeriod + 1)) = true.
Proof.
  unfold periods. rewrite !elem_of_cons, elem_of_nil.
  intros [->|[->|[->|[]]]]; vm_compute; reflexivity.
Qed.

(** For a meal counted between 0 and [selectedPeriod] times over a period of
    7, 14 or 30 days, the percentage printed is a whole number between 0
    and 100; it is 0 only for a meal never taken and 100 only for one taken
    every day. *)
Theorem frequency_percent_range (frequency selectedPeriod : Z) :
  selectedPeriod ∈ periods →
  (0 ≤ frequency ≤ selectedPeriod)%Z →
  ∃ z : Z,
    frequency_percent (Num (Qc_of_Z frequency)) (Num (Qc_of_Z selectedPeriod))
    = Num (Qc_of_Z z)
    ∧ (0 ≤ z ≤ 100)%Z
    ∧ (z = 0 ↔ frequency = 0)%Z
    ∧ (z = 100 ↔ frequency = selectedPeriod)%Z.
Proof.
  intros Hperiod Hfrequency.
  pose proof (frequency_percent_check selectedPeriod Hperiod) as Hcheck.
  rewrite forallb_forall in Hcheck.
  specialize (Hcheck frequency). rewrite <- list_elem_of_In, elem_of_seqZ in Hcheck.
  specialize (Hcheck ltac:(lia)).
  destruct (frequency_percent _ _) as [|q|]; try done.
  apply existsb_exists in Hcheck as (z & Hz & Hcheck).
  rewrite <- list_elem_of_In, elem_of_seqZ in Hz.
  apply andb_true_iff in Hcheck as [Hcheck H100].
  apply andb_true_iff in Hcheck as [Hq H0].
  apply bool_decide_eq_true in Hq as ->.
  apply Bool.eqb_prop in H0, H100.
  exists z. repeat split; try lia.
Qed.

Lemma frequency_percent_range_example :
  frequency_percent (lit 1) (lit 30) = lit 3
  ∧ frequency_percent (lit 29) (lit 30) = lit 97
  ∧ frequency_percent (lit 7) (lit 14) = lit 50.
Proof.
  destruct (frequency_percent_range 1 30) as (z & _);
    [unfold periods; set_solver | lia |].
  repeat split; compute_done.
Defined.

End EatingHabitsBarsMore.

(** ** NutrientChart: the time range *)
Section NutrientChartMore.
Import NutrientChart.

Lemma handleTimeRangeChange_button timeRange newRange :
  (∃ r, r ∈ range_buttons ∧ timeRange = VString r) →
  raised newRange →
  ∃ r, r ∈ range_buttons ∧ handleTimeRangeChange timeRange newRange = VString r.
Proof. intros Hrange [->|(r & Hr & ->)]; [done | by exists r]. Qed.

Lemma foldl_handleTimeRangeChange changes timeRange :
  (∃ r, r ∈ range_buttons ∧ timeRange = VString r) →
  Forall raised changes →
  (∃ r, r ∈ range_buttons
        ∧ foldl handleTimeRangeChange timeRange changes = VString r)
  ∧ foldl handleTimeRangeChange timeRange changes
    = default timeRange (last (List.filter (λ c, bool_decide (c ≠ VNull)) changes)).
Proof.
  revert timeRange.
  induction changes as [|c changes IH]; intros timeRange Hrange Hall; [done|].
  apply Forall_cons in Hall as [Hc Hall]. cbn [foldl].
  destruct (IH (handleTimeRangeChange timeRange c)) as [Hbutton Hlast];
    [by apply handleTimeRangeChange_button | done |].
  split; [exact Hbutton|]. rewrite Hlast. cbn [List.filter].
  case_bool_decide as Hnull.
  - destruct (List.filter _ changes) as [|c' l] eqn:Hfilter.
    + cbn. by destruct c.
    + rewrite last_cons_cons.
      destruct (last (c' :: l)) eqn:Hl; [done|]. by apply last_None in Hl.
  - subst c. reflexivity.
Qed.

(** The time range is never left empty: whatever buttons of the exclusive
    group are pressed, the selected one included (which passes [null]), the
    range is one of week, month and year, namely the last value passed that
    is not [null], or week when there is none. *)
Theorem timeRange_never_null changes :
  Forall raised changes →
  (∃ r, r ∈ range_buttons ∧ after changes = VString r)
  ∧ after changes
    = default initial (last (List.filter (λ c, bool_decide (c ≠ VNull)) changes)).
Proof.
  intros Hall. apply foldl_handleTimeRangeChange; [|done].
  exists "week"%string. split; [unfold range_buttons; set_solver | done].
Qed.

Lemma timeRange_never_null_example :
  after [VString "month"; VNull; VString "year"; VNull] = VString "year".
Proof.
  destruct (timeRange_never_null [VString "month"; VNull; VString "year"; VNull])
    as [_ ->]; [|reflexivity].
  unfold raised, range_buttons. repeat constructor; set_solver.
Defined.

End NutrientChartMore.

(** ** RegisterScreen *)
Section RegisterScreenMore.
Import RegisterScreen.

Lemma missing_false field :
  missing field = false ↔ ∃ text, field = Some text ∧ text ≠ ""%string.
Proof.
  destruct field as [text|]; cbn.
  - rewrite bool_decide_eq_false. split; [by exists text | by intros (? & [= <-] & ?)].
  - split; [done | by intros (? & ? & _)].
Qed.

(** [handleRegister] posts the form exactly when the e-mail, the password
    and the user name are filled and the confirmation repeats the password;
    it then posts the form as it is, whatever weight, height and age hold,
    and shows the login screen exactly when the server accepts.  A form that
    is not complete is not posted, and nothing is loading afterwards. *)
Theorem handleRegister_posts accepts st :
  (complete (formData st) →
     posted (handleRegister accepts st) = Some (formData st)
     ∧ login_shown (handleRegister accepts st) = accepts (formData st))
  ∧ (¬ complete (formData st) →
     posted (handleRegister accepts st) = None
     ∧ login_shown (handleRegister accepts st) = false
     ∧ error (state_after (handleRegister accepts st)) ≠ ""%string)
  ∧ (loading st = false → loading (state_after (handleRegister accepts st)) = false)
  ∧ formData (state_after (handleRegister accepts st)) = formData st.
Proof.
  unfold handleRegister, complete. rewrite <- !missing_false.
  destruct (missing (formData st !! "email")),
    (missing (formData st !! "password")),
    (missing (formData st !! "username")); cbn [orb];
    try (repeat split; cbn; try done; intros; intuition discriminate).
  case_bool_decide as Hpw.
  - repeat split; cbn; try done;
      match goal with H : _ ∧ _ |- _ => by destruct H as (_ & _ & _ & ?) end.
  - destruct (accepts (formData st)); repeat split; cbn; try done;
      match goal with H : ¬ _ |- _ => exfalso; by apply H end.
Qed.

(** A form filled in through the screen is posted with the weight left
    empty; the form the screen starts with is refused. *)
Lemma handleRegister_posts_example :
  posted (handleRegister (λ _, true)
    {| formData := after [TypeText "username" "lea"; TypeText "email" "lea@exemple.fr";
                          TypeText "password" "secret";
                          TypeText "confirmPassword" "secret"];
       loading := false; error := "" |})
  = Some (after [TypeText "username" "lea"; TypeText "email" "lea@exemple.fr";
                 TypeText "password" "secret"; TypeText "confirmPassword" "secret"])
  ∧ after [TypeText "username" "lea"; TypeText "email" "lea@exemple.fr";
           TypeText "password" "secret"; TypeText "confirmPassword" "secret"]
    !! "weight" = Some ""%string
  ∧ posted (handleRegister (λ _, true) initial) = None.
Proof.
  split; [|split].
  - apply (proj1 (handleRegister_posts (λ _, true)
      {| formData := after [TypeText "username" "lea"; TypeText "email" "lea@exemple.fr";
                            TypeText "password" "secret";
                            TypeText "confirmPassword" "secret"];
         loading := false; error := "" |})).
    repeat split; try (eexists; split; [reflexivity | done]).
  - reflexivity.
  - apply (proj1 (proj2 (handleRegister_posts (λ _, true) initial))).
    intros ((email & Hemail & Hne) & _). by injection Hemail as <-.
Defined.

Lemma handle_chosen formData e : chosen formData → raised e → chosen (handle formData e).
Proof.
  intros [Hg Ha] He. destruct e as [key text|g|a]; cbn in *.
  - unfold chosen, updateFormData.
    assert (key ≠ "gender" ∧ key ≠ "activityLevel") as [??].
    { split; intros ->; revert He; compute_done. }
    by rewrite !lookup_insert_ne by done.
  - unfold chosen, updateFormData.
    rewrite lookup_insert_eq, lookup_insert_ne by done. eauto.
  - unfold chosen, updateFormData.
    rewrite lookup_insert_eq, lookup_insert_ne by done. eauto.
Qed.

Lemma foldl_handle_chosen events formData :
  chosen formData → Forall raised events → chosen (foldl handle formData events).
Proof.
  revert formData.
  induction events as [|e events IH]; intros formData Hform Hall; [done|].
  apply Forall_cons in Hall as [He Hall]. cbn.
  apply IH; [by apply handle_chosen | done].
Qed.

(** Whatever is typed and pressed on the registration screen, the gender of
    the form is ['homme'] or ['femme'] and its activity level is one the
    profile screen knows: a profile with that gender and that level gets the
    multiplier 1.2, 1.55 or 1.725 of its own level, never the fallback and
    never an inherited member. *)
Theorem registered_choices_recognised events (p : ProfileScreen.profile) :
  Forall raised events →
  after events !! "gender" = Some (ToString (ProfileScreen.gender p)) →
  after events !! "activityLevel" = Some (ToString (ProfileScreen.activityLevel p)) →
  (∃ s, ToString (ProfileScreen.gender p) = gender_code s)
  ∧ ∃ a, a ∈ [Sedentary; Moderate; Active]
      ∧ ToString (ProfileScreen.activityLevel p) = activity_code a
      ∧ ProfileScreen.getActivityMultiplier p = PNumber (Num (multiplier a)).
Proof.
  intros Hall Hgender Hlevel.
  destruct (foldl_handle_chosen events initial_formData) as [(g & Hg & Hg') (a & Ha & Ha')];
    [|done|].
  { split; [exists "homme"%string | exists "sedentaire"%string];
      (split; [unfold gender_buttons, activityLevel_buttons; set_solver | done]). }
  fold (after events) in Hg', Ha'.
  rewrite Hg' in Hgender. rewrite Ha' in Hlevel.
  injection Hgender as Hgender. injection Hlevel as Hlevel.
  rewrite <- Hgender. split.
  - unfold gender_buttons in Hg.
    apply elem_of_cons in Hg as [->|Hg]; [by exists Male|].
    apply elem_of_cons in Hg as [->|Hg]; [by exists Female|].
    by apply elem_of_nil in Hg.
  - unfold ProfileScreen.getActivityMultiplier. rewrite <- Hlevel.
    unfold activityLevel_buttons in Ha.
    apply elem_of_cons in Ha as [->|Ha];
      [exists Sedentary; split; [repeat constructor | split; [done | compute_done]]|].
    apply elem_of_cons in Ha as [->|Ha];
      [exists Moderate; split; [repeat constructor | split; [done | compute_done]]|].
    apply elem_of_cons in Ha as [->|Ha];
      [exists Active; split; [repeat constructor | split; [done | compute_done]]|].
    by apply elem_of_nil in Ha.
Qed.

Lemma registered_choices_recognised_example :
  ProfileScreen.getActivityMultiplier Sample.female_60 = PNumber (lit 1.725).
Proof.
  destruct (registered_choices_recognised
    [PressGender "femme"; TypeText "weight" "60"; PressActivityLevel "actif"]
    Sample.female_60) as (_ & a & _ & Ha & ->); [| reflexivity | reflexivity |].
  - unfold raised, gender_buttons, text_fields, activityLevel_buttons.
    repeat constructor; compute_done.
  - destruct a; try discriminate Ha. reflexivity.
Defined.

End RegisterScreenMore.
